(** * appo-mcp: the issue matcher and the permission pattern analyzer

    A shallow embedding of the two tool entry points
    [diagnoseIssue] (the issue matcher) and [checkPermissions]
    (src/tools/check-permissions.ts), with the properties the specification
    states about them.

    Conventions of the embedding.
    - A JavaScript string is a Rocq [string]: the bytes of its UTF-8
      encoding.  Substring search on well-formed UTF-8 text agrees with
      substring search on the code points.  [toLowerCase] and [toUpperCase]
      act on the ASCII letters and leave every other byte alone, which is
      what the JavaScript methods do on ASCII text; cased letters outside
      ASCII are outside the model.  The whole catalogue is ASCII.
    - An argument field is [JsUndefined] (absent) or [JsString s], as the
      interfaces [DiagnoseIssueArgs] and [CheckPermissionsArgs] declare
      them.  The enumerations of the interfaces are widened to [string]:
      the casts of the source check nothing at run time.
    - A call either returns or throws: [completion].  The value an [async]
      function resolves to is [Normal], a rejection is [Throw]. *)

From Stdlib Require Import String Ascii List Bool Arith Lia.
Import ListNotations.
Local Open Scope list_scope.
Local Open Scope string_scope.

(** ** The fragment of JavaScript the two tools use *)

Module Js.

Inductive JsError : Type :=
| TypeError.

Inductive completion (A : Type) : Type :=
| Normal (a : A)
| Throw (e : JsError).

Arguments Normal {A} a.
Arguments Throw {A} e.

Definition bind {A B : Type} (c : completion A) (k : A -> completion B)
  : completion B :=
  match c with
  | Normal a => k a
  | Throw e => Throw e
  end.

Inductive JsValue : Type :=
| JsUndefined
| JsString (s : string).

(** [ToBoolean]: [undefined] and the empty string are falsy. *)
Definition ToBoolean (v : JsValue) : bool :=
  match v with
  | JsUndefined => false
  | JsString EmptyString => false
  | JsString (String _ _) => true
  end.

(** [ToString], as a template literal applies it. *)
Definition ToString (v : JsValue) : string :=
  match v with
  | JsUndefined => "undefined"
  | JsString s => s
  end.

Definition dquote : string := String (ascii_of_nat 34) EmptyString.
Definition newline : string := String (ascii_of_nat 10) EmptyString.

Definition lowerAscii (c : ascii) : ascii :=
  let n := nat_of_ascii c in
  if ((65 <=? n) && (n <=? 90))%nat then ascii_of_nat (n + 32) else c.

Definition upperAscii (c : ascii) : ascii :=
  let n := nat_of_ascii c in
  if ((97 <=? n) && (n <=? 122))%nat then ascii_of_nat (n - 32) else c.

Fixpoint mapString (f : ascii -> ascii) (s : string) : string :=
  match s with
  | EmptyString => EmptyString
  | String c s' => String (f c) (mapString f s')
  end.

(** [s.toLowerCase()] and [s.toUpperCase()] on ASCII text: the letters A-Z,
    respectively a-z, are mapped and every other byte is kept.  On text
    with cased letters outside ASCII the JavaScript methods do more, so a
    statement that reads a caller's text through them is made for ASCII
    text ([isAscii]) or for the search terms as given. *)
Definition toLowerCase (s : string) : string := mapString lowerAscii s.
Definition toUpperCase (s : string) : string := mapString upperAscii s.

(** [k] starts [s]. *)
Fixpoint startsWith (s k : string) {struct k} : bool :=
  match k, s with
  | EmptyString, _ => true
  | String _ _, EmptyString => false
  | String a k', String b s' => Ascii.eqb a b && startsWith s' k'
  end.

(** [s.includes(k)]: [k] occurs in [s] at some position. *)
Fixpoint includes (s k : string) : bool :=
  startsWith s k ||
  match s with
  | EmptyString => false
  | String _ s' => includes s' k
  end.

(** [s.charAt(0)] and [s.slice(1)]. *)
Definition charAt0 (s : string) : string :=
  match s with
  | EmptyString => EmptyString
  | String c _ => String c EmptyString
  end.

Definition slice1 (s : string) : string :=
  match s with
  | EmptyString => EmptyString
  | String _ s' => s'
  end.

(** [a.join(sep)]. *)
Fixpoint join (sep : string) (a : list string) : string :=
  match a with
  | [] => EmptyString
  | [x] => x
  | x :: rest => (x ++ sep ++ join sep rest)%string
  end.

(** [a.push(x)] on an array held in a local variable. *)
Definition push (a : list string) (x : string) : list string :=
  (a ++ [x])%list.

(** [a.forEach(x => sections.push(f x))]. *)
Definition forEachPush (f : string -> string) (a : list string)
  (sections : list string) : list string :=
  fold_left (fun acc x => push acc (f x)) a sections.

(** [a.slice(0, n)]. *)
Definition slice0 {A : Type} (n : nat) (a : list A) : list A := firstn n a.

(** Property lookup [o[key]] on an object literal [o] whose prototype is
    [Object.prototype]: an own property, else one of the properties every
    object inherits (ECMAScript 20.1.3 and B.2.2; all of them are functions
    or objects, so truthy), else [undefined]. *)
Inductive Property (A : Type) : Type :=
| Own (a : A)
| Inherited
| Absent.

Arguments Own {A} a.
Arguments Inherited {A}.
Arguments Absent {A}.

Definition ObjectPrototype : list string :=
  [ "constructor"; "hasOwnProperty"; "isPrototypeOf"; "propertyIsEnumerable";
    "toLocaleString"; "toString"; "valueOf"; "__proto__";
    "__defineGetter__"; "__defineSetter__";
    "__lookupGetter__"; "__lookupSetter__" ].

Fixpoint ownProperty {A : Type} (o : list (string * A)) (key : string)
  : option A :=
  match o with
  | [] => None
  | (k, v) :: rest => if String.eqb k key then Some v else ownProperty rest key
  end.

Definition getProperty {A : Type} (o : list (string * A)) (key : string)
  : Property A :=
  match ownProperty o key with
  | Some v => Own v
  | None =>
      if existsb (String.eqb key) ObjectPrototype then Inherited else Absent
  end.

(** The receiver of a method call such as [v.toLowerCase()] or
    [v.includes(k)]: the call throws when [v] is [undefined]. *)
Definition receiver (v : JsValue) : completion string :=
  match v with
  | JsString s => Normal s
  | JsUndefined => Throw TypeError
  end.

(** [!o[key]]. *)
Definition isFalsyProperty {A : Type} (p : Property A) : bool :=
  match p with
  | Absent => true
  | _ => false
  end.

(** [Object.keys(o)]. *)
Definition keys {A : Type} (o : list (string * A)) : list string :=
  map fst o.

End Js.

Import Js.

Notation "x <- c ;; k" := (bind c (fun x => k))
  (at level 61, c at next level, right associativity).

(** The envelope both tools answer with:
    [{ content: [{ type: "text", text }] }]. *)
Record TextContent : Type := { type : string; text : string }.
Record ToolResult : Type := { content : list TextContent }.

Definition textResult (t : string) : ToolResult :=
  {| content := [ {| type := "text"; text := t |} ] |}.

(** ** The issue matcher *)

Module Diagnose.

Record DiagnoseIssueArgs : Type :=
  { symptom : JsValue;
    feature : JsValue;
    errorMessage : JsValue;
    platform : JsValue }.

Record Issue : Type :=
  { title : string;
    symptoms : list string;
    causes : list string;
    solutions : list string;
    codeExample : JsValue }.

Definition sdkNotWorkingInBrowser : Issue :=
  {| title := "SDK not working in browser";
     symptoms :=
       [ "not working";
         "doesn't work";
         "nothing happens";
         "no response";
         "undefined";
         "browser";
         "web" ];
     causes :=
       [ "The SDK is designed for React Native WebViews and provides graceful fallbacks in browsers";
         "Native features require the host app to be running" ];
     solutions :=
       [ "Check `appo.isNative` before using native-only features";
         "Implement fallback UI for web browsers";
         "Test in the actual React Native WebView environment" ];
     codeExample := JsString
"const appo = getAppo();

if (appo.isNative) {
  // Full native functionality available
  const token = await appo.push.getToken();
} else {
  // Running in browser - show fallback
  console.log('Push notifications require the native app');
}" |}.

Definition permissionAlwaysDenied : Issue :=
  {| title := "Permission always denied";
     symptoms :=
       [ "permission denied";
         "always denied";
         "can't get permission";
         "requestPermission returns denied" ];
     causes :=
       [ "Running in a browser (fallback returns 'denied')";
         "User previously denied permission";
         "Permission not configured in app.json/Info.plist" ];
     solutions :=
       [ "Check if running in native context with `appo.isNative`";
         "For iOS: Add usage description in Info.plist";
         "For Android: Ensure permissions in AndroidManifest.xml";
         "Guide users to enable permissions in device Settings" ];
     codeExample := JsString
"const status = await appo.push.requestPermission();

if (status === 'denied') {
  // Check if we're in native
  if (!appo.isNative) {
    console.log('Native app required for push notifications');
  } else {
    // User denied - prompt to enable in Settings
    alert('Please enable notifications in your device Settings');
  }
}" |}.

Definition pushTokenIsNull : Issue :=
  {| title := "Push token is null";
     symptoms :=
       [ "token null";
         "token is null";
         "getToken returns null";
         "no push token";
         "undefined token" ];
     causes :=
       [ "Permission not granted before requesting token";
         "Running in browser (fallback returns null)";
         "Push notification service not configured";
         "Network connectivity issues" ];
     solutions :=
       [ "Always request permission before getting token";
         "Verify Expo push notification setup";
         "Check network connectivity";
         "Ensure `appo.isNative` is true" ];
     codeExample := JsString
"async function getPushToken() {
  const appo = getAppo();

  if (!appo.isNative) {
    console.log('Push requires native app');
    return null;
  }

  const permission = await appo.push.requestPermission();
  if (permission !== 'granted') {
    console.log('Permission not granted');
    return null;
  }

  const token = await appo.push.getToken();
  if (!token) {
    console.log('Could not get push token - check Expo config');
  }

  return token;
}" |}.

Definition biometricsNotAvailable : Issue :=
  {| title := "Biometrics not available";
     symptoms :=
       [ "biometrics not available";
         "face id not working";
         "touch id not working";
         "isAvailable returns false" ];
     causes :=
       [ "Device doesn't have biometric hardware";
         "Biometrics not enrolled on device";
         "Running in browser/simulator";
         "Permission not granted in app settings" ];
     solutions :=
       [ "Check `isAvailable()` before offering biometric auth";
         "Test on physical device with enrolled biometrics";
         "Provide password/PIN fallback" ];
     codeExample := JsString
"async function setupBiometrics() {
  const appo = getAppo();

  const available = await appo.biometrics.isAvailable();

  if (!available) {
    // Fallback to PIN or password
    return { method: 'password' };
  }

  return { method: 'biometrics' };
}" |}.

Definition cameraNotCapturing : Issue :=
  {| title := "Camera not capturing";
     symptoms :=
       [ "camera not working";
         "takePicture returns null";
         "camera black screen";
         "no photo" ];
     causes :=
       [ "Permission not granted";
         "Camera in use by another app";
         "Running in browser";
         "User cancelled capture" ];
     solutions :=
       [ "Request and verify camera permission first";
         "Handle null return from takePicture()";
         "Check `appo.isNative` before camera operations" ];
     codeExample := JsString
"async function capturePhoto() {
  const appo = getAppo();

  if (!appo.isNative) {
    // Could use file input fallback
    return null;
  }

  const permission = await appo.camera.requestPermission();
  if (permission !== 'granted') {
    console.log('Camera permission required');
    return null;
  }

  const photo = await appo.camera.takePicture();
  if (!photo) {
    console.log('Photo capture cancelled or failed');
    return null;
  }

  return photo;
}" |}.

Definition locationInaccurateOrSlow : Issue :=
  {| title := "Location inaccurate or slow";
     symptoms :=
       [ "location inaccurate";
         "wrong location";
         "location slow";
         "takes long time";
         "accuracy" ];
     causes :=
       [ "GPS not available (indoors)";
         "Low accuracy mode enabled";
         "Device location services disabled" ];
     solutions :=
       [ "Check the accuracy property in the returned position";
         "Request high accuracy if needed";
         "Handle timeout gracefully";
         "Show loading state to user" ];
     codeExample := JsString
"async function getLocation() {
  const appo = getAppo();

  const position = await appo.location.getCurrentPosition();

  if (position) {
    if (position.accuracy > 100) {
      console.log('Low accuracy:', position.accuracy, 'meters');
      // Consider retrying or warning user
    }
    return position;
  }

  return null;
}" |}.

Definition storageNotPersisting : Issue :=
  {| title := "Storage not persisting";
     symptoms :=
       [ "storage not saving";
         "data lost";
         "storage cleared";
         "values disappear" ];
     causes :=
       [ "Using browser localStorage (cleared on app reinstall)";
         "Async timing issues";
         "Storage quota exceeded" ];
     solutions :=
       [ "Verify storage key consistency";
         "Await storage operations";
         "Handle storage errors" ];
     codeExample := JsString
"async function saveSettings(settings: object) {
  const appo = getAppo();

  try {
    await appo.storage.set('user-settings', JSON.stringify(settings));
    console.log('Settings saved');
  } catch (error) {
    console.error('Failed to save settings:', error);
  }
}

async function loadSettings() {
  const appo = getAppo();

  const stored = await appo.storage.get('user-settings');
  if (stored) {
    return JSON.parse(stored);
  }
  return null;
}" |}.

Definition networkStatusIncorrect : Issue :=
  {| title := "Network status incorrect";
     symptoms :=
       [ "network status wrong";
         "shows offline when online";
         "network not updating" ];
     causes :=
       [ "Browser fallback using navigator.onLine (limited accuracy)";
         "Network change listener not set up" ];
     solutions :=
       [ "Use onChange listener for real-time updates";
         "Don't rely solely on initial status";
         "Test actual network requests as backup" ];
     codeExample := JsString
"import { useEffect, useState } from 'react';
import { getAppo } from '@appolabs/appo';

function useNetworkStatus() {
  const [isOnline, setIsOnline] = useState(true);
  const appo = getAppo();

  useEffect(() => {
    // Initial status
    appo.network.getStatus().then(s => setIsOnline(s?.isConnected ?? true));

    // Listen for changes
    return appo.network.onChange(status => {
      setIsOnline(status?.isConnected ?? true);
    });
  }, []);

  return isOnline;
}" |}.

Definition typesNotWorking : Issue :=
  {| title := "Types not working";
     symptoms :=
       [ "typescript error";
         "type error";
         "types not found";
         "cannot find module" ];
     causes :=
       [ "Package not properly installed";
         "TypeScript configuration issues";
         "IDE cache needs refresh" ];
     solutions :=
       [ "Reinstall the package: `pnpm add @appolabs/appo`";
         "Ensure moduleResolution is 'bundler' or 'node16'";
         "Restart your IDE/TypeScript server" ];
     codeExample := JsString
"// Make sure to import types explicitly if needed
import { getAppo } from '@appolabs/appo';
import type { PermissionStatus, PushMessage } from '@appolabs/appo';

const appo = getAppo();
// appo should now have full type inference" |}.

Definition knownIssues : list Issue :=
  [ sdkNotWorkingInBrowser;
    permissionAlwaysDenied;
    pushTokenIsNull;
    biometricsNotAvailable;
    cameraNotCapturing;
    locationInaccurateOrSlow;
    storageNotPersisting;
    networkStatusIncorrect;
    typesNotWorking ].

Definition symptomPrompt : string :=
  "Please describe the issue you're experiencing in the `symptom` parameter.".

Definition closingNote : string :=
  newline ++
  "If none of these solutions work, please provide more details about your setup (package versions, platform, full error message).".

(** The body of the loop of [buildDiagnosisOutput] for one issue. *)
Definition renderIssue (sections : list string) (issue : Issue) : list string :=
  let sections := push sections ("### " ++ issue.(title) ++ newline) in
  let sections := push sections "**Possible Causes:**" in
  let sections := forEachPush (fun c => "- " ++ c) issue.(causes) sections in
  let sections := push sections EmptyString in
  let sections := push sections "**Solutions:**" in
  let sections := forEachPush (fun s => "- " ++ s) issue.(solutions) sections in
  let sections := push sections EmptyString in
  if ToBoolean issue.(codeExample) then
    let sections := push sections "**Example Fix:**" in
    let sections := push sections "```tsx" in
    let sections := push sections (ToString issue.(codeExample)) in
    let sections := push sections "```" in
    push sections EmptyString
  else sections.

Definition buildDiagnosisOutput (issues : list Issue) (platform : JsValue)
  : string :=
  let sections := [] in
  let sections := push sections ("## Diagnosis Results" ++ newline) in
  let sections :=
    if ToBoolean platform
    then push sections ("Platform: **" ++ ToString platform ++ "**" ++ newline)
    else sections in
  let sections := fold_left renderIssue (slice0 3 issues) sections in
  let sections := push sections "---" in
  let sections := push sections closingNote in
  join newline sections.

Definition buildGenericDiagnosis
  (symptom feature errorMessage platform : JsValue) : string :=
  let sections := [] in
  let sections := push sections ("## Diagnosis" ++ newline) in
  let sections :=
    push sections ("**Symptom:** " ++ ToString symptom ++ newline) in
  let sections :=
    if ToBoolean feature
    then push sections ("**Feature:** " ++ ToString feature) else sections in
  let sections :=
    if ToBoolean errorMessage
    then push sections ("**Error:** " ++ ToString errorMessage)
    else sections in
  let sections :=
    if ToBoolean platform
    then push sections ("**Platform:** " ++ ToString platform)
    else sections in
  let sections := push sections EmptyString in
  let sections :=
    push sections ("### General Troubleshooting Steps" ++ newline) in
  let sections := push sections
    "1. **Check native context:** Verify `appo.isNative` is true" in
  let sections := push sections
    "2. **Check permissions:** Ensure required permissions are granted" in
  let sections := push sections
    "3. **Check installation:** Verify `@appolabs/appo` is properly installed" in
  let sections := push sections
    "4. **Check console:** Look for errors in the console/logs" in
  let sections := push sections
    "5. **Test on device:** Some features only work on physical devices" in
  let sections := push sections EmptyString in
  let sections := push sections ("### Debug Code" ++ newline) in
  let sections := push sections "```tsx" in
  let sections := push sections "import { getAppo } from '@appolabs/appo';" in
  let sections := push sections EmptyString in
  let sections := push sections "function debugSdk() {" in
  let sections := push sections "  const appo = getAppo();" in
  let sections :=
    push sections "  console.log('SDK Version:', appo.version);" in
  let sections :=
    push sections "  console.log('Is Native:', appo.isNative);" in
  let sections := push sections "  appo.device.getInfo().then(info => {" in
  let sections := push sections "    console.log('Device:', info);" in
  let sections := push sections "  });" in
  let sections := push sections "}" in
  let sections := push sections "```" in
  let sections := push sections EmptyString in
  let sections := push sections
    "Please provide more details (error messages, code snippets) for a more specific diagnosis." in
  join newline sections.

(** [issue.symptoms.some(s => searchTerms.includes(s.toLowerCase()))]. *)
Definition matchesSymptom (searchTerms : string) (issue : Issue) : bool :=
  existsb (fun s => includes searchTerms (toLowerCase s)) issue.(symptoms).

(** [issue.title.toLowerCase().includes(feature) ||
     issue.symptoms.some(s => s.includes(feature))]. *)
Definition matchesFeature (feature : string) (issue : Issue) : bool :=
  includes (toLowerCase issue.(title)) feature ||
  existsb (fun s => includes s feature) issue.(symptoms).

Definition matchedIssues (searchTerms : string) : list Issue :=
  filter (matchesSymptom searchTerms) knownIssues.

Definition featureIssues (searchTerms : string) (feature : JsValue)
  : list Issue :=
  if ToBoolean feature
  then filter (matchesFeature (ToString feature)) (matchedIssues searchTerms)
  else matchedIssues searchTerms.

Definition relevantIssues (searchTerms : string) (feature : JsValue)
  : list Issue :=
  if (0 <? List.length (featureIssues searchTerms feature))%nat
  then featureIssues searchTerms feature
  else matchedIssues searchTerms.

Definition diagnoseIssue (args : DiagnoseIssueArgs) : completion ToolResult :=
  let symptom := args.(symptom) in
  let feature := args.(feature) in
  let errorMessage := args.(errorMessage) in
  let platform := args.(platform) in
  if negb (ToBoolean symptom) then Normal (textResult symptomPrompt)
  else
    s <- receiver symptom ;;
    let searchTerms := toLowerCase s in
    let relevantIssues := relevantIssues searchTerms feature in
    if (List.length relevantIssues =? 0)%nat then
      Normal (textResult
                (buildGenericDiagnosis symptom feature errorMessage platform))
    else
      let output := buildDiagnosisOutput relevantIssues platform in
      Normal (textResult output).

End Diagnose.

(** ** The permission pattern analyzer *)

Module Permissions.

Record CheckPermissionsArgs : Type :=
  { code : JsValue;
    feature : JsValue }.

Record PermissionAnalysis : Type :=
  { hasPermissionRequest : bool;
    hasStatusCheck : bool;
    hasDeniedHandling : bool;
    hasUndeterminedHandling : bool;
    hasErrorHandling : bool;
    hasUserExplanation : bool;
    issues : list string;
    suggestions : list string }.

Record FeatureApi : Type :=
  { api : string;
    protectedMethods : list string }.

Definition featureApiMap : list (string * FeatureApi) :=
  [ ("push", {| api := "appo.push"; protectedMethods := ["getToken"] |});
    ("camera", {| api := "appo.camera"; protectedMethods := ["takePicture"] |});
    ("location",
      {| api := "appo.location"; protectedMethods := ["getCurrentPosition"] |})
  ].

Definition missingParameters : string :=
  "Please provide both `code` and `feature` (push, camera, or location) parameters.".

Definition invalidFeature : string :=
  "Invalid feature. Permission-required features are: " ++
  join ", " (keys featureApiMap).

(** Assignments to the fields of the [analysis] object. *)
Definition setHasPermissionRequest (a : PermissionAnalysis) (b : bool) :=
  {| hasPermissionRequest := b;
     hasStatusCheck := a.(hasStatusCheck);
     hasDeniedHandling := a.(hasDeniedHandling);
     hasUndeterminedHandling := a.(hasUndeterminedHandling);
     hasErrorHandling := a.(hasErrorHandling);
     hasUserExplanation := a.(hasUserExplanation);
     issues := a.(issues);
     suggestions := a.(suggestions) |}.

Definition setHasStatusCheck (a : PermissionAnalysis) (b : bool) :=
  {| hasPermissionRequest := a.(hasPermissionRequest);
     hasStatusCheck := b;
     hasDeniedHandling := a.(hasDeniedHandling);
     hasUndeterminedHandling := a.(hasUndeterminedHandling);
     hasErrorHandling := a.(hasErrorHandling);
     hasUserExplanation := a.(hasUserExplanation);
     issues := a.(issues);
     suggestions := a.(suggestions) |}.

Definition setHasDeniedHandling (a : PermissionAnalysis) (b : bool) :=
  {| hasPermissionRequest := a.(hasPermissionRequest);
     hasStatusCheck := a.(hasStatusCheck);
     hasDeniedHandling := b;
     hasUndeterminedHandling := a.(hasUndeterminedHandling);
     hasErrorHandling := a.(hasErrorHandling);
     hasUserExplanation := a.(hasUserExplanation);
     issues := a.(issues);
     suggestions := a.(suggestions) |}.

Definition setHasUndeterminedHandling (a : PermissionAnalysis) (b : bool) :=
  {| hasPermissionRequest := a.(hasPermissionRequest);
     hasStatusCheck := a.(hasStatusCheck);
     hasDeniedHandling := a.(hasDeniedHandling);
     hasUndeterminedHandling := b;
     hasErrorHandling := a.(hasErrorHandling);
     hasUserExplanation := a.(hasUserExplanation);
     issues := a.(issues);
     suggestions := a.(suggestions) |}.

Definition setHasErrorHandling (a : PermissionAnalysis) (b : bool) :=
  {| hasPermissionRequest := a.(hasPermissionRequest);
     hasStatusCheck := a.(hasStatusCheck);
     hasDeniedHandling := a.(hasDeniedHandling);
     hasUndeterminedHandling := a.(hasUndeterminedHandling);
     hasErrorHandling := b;
     hasUserExplanation := a.(hasUserExplanation);
     issues := a.(issues);
     suggestions := a.(suggestions) |}.

Definition setHasUserExplanation (a : PermissionAnalysis) (b : bool) :=
  {| hasPermissionRequest := a.(hasPermissionRequest);
     hasStatusCheck := a.(hasStatusCheck);
     hasDeniedHandling := a.(hasDeniedHandling);
     hasUndeterminedHandling := a.(hasUndeterminedHandling);
     hasErrorHandling := a.(hasErrorHandling);
     hasUserExplanation := b;
     issues := a.(issues);
     suggestions := a.(suggestions) |}.

(** [analysis.issues.push(x)] and [analysis.suggestions.push(x)]. *)
Definition pushIssue (a : PermissionAnalysis) (x : string) :=
  {| hasPermissionRequest := a.(hasPermissionRequest);
     hasStatusCheck := a.(hasStatusCheck);
     hasDeniedHandling := a.(hasDeniedHandling);
     hasUndeterminedHandling := a.(hasUndeterminedHandling);
     hasErrorHandling := a.(hasErrorHandling);
     hasUserExplanation := a.(hasUserExplanation);
     issues := push a.(issues) x;
     suggestions := a.(suggestions) |}.

Definition pushSuggestion (a : PermissionAnalysis) (x : string) :=
  {| hasPermissionRequest := a.(hasPermissionRequest);
     hasStatusCheck := a.(hasStatusCheck);
     hasDeniedHandling := a.(hasDeniedHandling);
     hasUndeterminedHandling := a.(hasUndeterminedHandling);
     hasErrorHandling := a.(hasErrorHandling);
     hasUserExplanation := a.(hasUserExplanation);
     issues := a.(issues);
     suggestions := push a.(suggestions) x |}.

Definition protectedMethodIssue (method : string) : string :=
  "Protected method `" ++ method ++
  "` is used without requesting permission first.".

Definition noRequestIssue (feature : string) : string :=
  "No `requestPermission()` call found for " ++ feature ++ ".".

Definition noDeniedHandlingIssue : string :=
  "No handling for 'denied' permission status. Users who deny permission won't see helpful feedback.".

(** The body of the loop over [protectedMethods]. *)
Definition checkMethod (code : string) (analysis : PermissionAnalysis)
  (method : string) : PermissionAnalysis :=
  if includes code ("." ++ method ++ "(")
     && negb (includes code "requestPermission")
  then pushIssue analysis (protectedMethodIssue method)
  else analysis.

Definition analyzePermissionPatterns (code feature : string)
  : completion PermissionAnalysis :=
  let analysis :=
    {| hasPermissionRequest := false;
       hasStatusCheck := false;
       hasDeniedHandling := false;
       hasUndeterminedHandling := false;
       hasErrorHandling := false;
       hasUserExplanation := false;
       issues := [];
       suggestions := [] |} in
  (* const { protectedMethods } = featureApiMap[feature]: destructuring
     [undefined] throws; a property inherited from Object.prototype has no
     [protectedMethods], so the variable is [undefined]. *)
  protectedMethods <-
    match getProperty featureApiMap feature with
    | Own spec => Normal (Some spec.(protectedMethods))
    | Inherited => Normal None
    | Absent => Throw TypeError
    end ;;
  let analysis :=
    if includes code "requestPermission"
    then setHasPermissionRequest analysis true else analysis in
  let analysis :=
    if includes code "permission" ||
       includes code "status" ||
       includes code "'granted'" ||
       includes code (dquote ++ "granted" ++ dquote)
    then setHasStatusCheck analysis true else analysis in
  let analysis :=
    if includes code "'denied'" ||
       includes code (dquote ++ "denied" ++ dquote) ||
       includes code "=== 'denied'" ||
       includes code ("=== " ++ dquote ++ "denied" ++ dquote)
    then setHasDeniedHandling analysis true else analysis in
  let analysis :=
    if includes code "'undetermined'" ||
       includes code (dquote ++ "undetermined" ++ dquote) ||
       includes code "null"
    then setHasUndeterminedHandling analysis true else analysis in
  let analysis :=
    if includes code "try" && includes code "catch"
    then setHasErrorHandling analysis true else analysis in
  let analysis :=
    if includes code "modal" ||
       includes code "Modal" ||
       includes code "dialog" ||
       includes code "Dialog" ||
       includes code "alert" ||
       includes code "confirm" ||
       includes code "explanation" ||
       includes code "why" ||
       includes code "permission needed"
    then setHasUserExplanation analysis true else analysis in
  (* for (const method of protectedMethods): [undefined] is not iterable. *)
  analysis <-
    match protectedMethods with
    | Some methods => Normal (fold_left (checkMethod code) methods analysis)
    | None => Throw TypeError
    end ;;
  let analysis :=
    if negb analysis.(hasPermissionRequest)
    then pushIssue analysis (noRequestIssue feature) else analysis in
  let analysis :=
    if negb analysis.(hasDeniedHandling)
    then pushIssue analysis noDeniedHandlingIssue else analysis in
  let analysis :=
    if negb analysis.(hasUserExplanation)
    then pushSuggestion analysis
      "Consider explaining to users WHY you need this permission before requesting it. This improves acceptance rates."
    else analysis in
  let analysis :=
    if negb analysis.(hasErrorHandling)
    then pushSuggestion analysis
      "Add try/catch blocks to handle potential errors during permission requests."
    else analysis in
  let analysis :=
    if negb analysis.(hasUndeterminedHandling)
    then pushSuggestion analysis
      "Handle the 'undetermined' state - this is the initial state before the user makes a choice."
    else analysis in
  Normal analysis.

Definition pushPattern : string :=
"import { useState } from 'react';
import { getAppo, type PermissionStatus } from '@appolabs/appo';

function PushNotificationSetup() {
  const [status, setStatus] = useState<PermissionStatus | null>(null);
  const [showExplanation, setShowExplanation] = useState(true);
  const appo = getAppo();

  const handleEnable = async () => {
    try {
      const result = await appo.push.requestPermission();
      setStatus(result);

      if (result === 'granted') {
        const token = await appo.push.getToken();
        // Send token to your backend
      }
    } catch (error) {
      console.error('Push permission error:', error);
    }
  };

  if (status === 'denied') {
    return <p>Push notifications are disabled. Enable them in Settings.</p>;
  }

  if (showExplanation) {
    return (
      <div>
        <p>We'll send you updates about your orders and exclusive offers.</p>
        <button onClick={() => { setShowExplanation(false); handleEnable(); }}>
          Enable Notifications
        </button>
      </div>
    );
  }

  return null;
}".

Definition cameraPattern : string :=
"import { useState } from 'react';
import { getAppo, type PermissionStatus } from '@appolabs/appo';

function CameraCapture() {
  const [status, setStatus] = useState<PermissionStatus | null>(null);
  const appo = getAppo();

  const handleCapture = async () => {
    try {
      // Request permission first
      if (status !== 'granted') {
        const result = await appo.camera.requestPermission();
        setStatus(result);
        if (result !== 'granted') return;
      }

      // Now safe to capture
      const photo = await appo.camera.takePicture();
      if (photo) {
        // Handle photo
      }
    } catch (error) {
      console.error('Camera error:', error);
    }
  };

  if (status === 'denied') {
    return <p>Camera access denied. Please enable in Settings.</p>;
  }

  return <button onClick={handleCapture}>Take Photo</button>;
}".

Definition locationPattern : string :=
"import { useState } from 'react';
import { getAppo, type PermissionStatus } from '@appolabs/appo';

function LocationAccess() {
  const [status, setStatus] = useState<PermissionStatus | null>(null);
  const [showRationale, setShowRationale] = useState(true);
  const appo = getAppo();

  const handleGetLocation = async () => {
    try {
      if (status !== 'granted') {
        const result = await appo.location.requestPermission();
        setStatus(result);
        if (result !== 'granted') return;
      }

      const position = await appo.location.getCurrentPosition();
      if (position) {
        // Use location
      }
    } catch (error) {
      console.error('Location error:', error);
    }
  };

  if (status === 'denied') {
    return <p>Location access denied. Enable in Settings to use this feature.</p>;
  }

  if (showRationale) {
    return (
      <div>
        <p>We need your location to find nearby stores.</p>
        <button onClick={() => { setShowRationale(false); handleGetLocation(); }}>
          Share Location
        </button>
      </div>
    );
  }

  return null;
}".

Definition patterns : list (string * string) :=
  [ ("push", pushPattern);
    ("camera", cameraPattern);
    ("location", locationPattern) ].

(** [patterns[feature]].  [checkPermissions] reaches this function with an
    own key only, [analyzePermissionPatterns] having thrown for every other
    one; for the other keys the model gives the empty string, which is how
    [join] renders [undefined]. *)
Definition getRecommendedPattern (feature : string) : string :=
  match getProperty patterns feature with
  | Own p => p
  | _ => EmptyString
  end.

(** The two markers of the bullet lists, as the bytes stand in the source
    file. *)
Definition issueMark : string :=
  string_of_list_ascii (map ascii_of_nat [195; 162; 197; 146]).

Definition suggestionMark : string :=
  string_of_list_ascii
    (map ascii_of_nat [195; 176; 197; 184; 226; 128; 153; 194; 161]).

Definition checkbox (b : bool) : string := if b then "x" else " ".

Definition buildAnalysisOutput (feature : string)
  (analysis : PermissionAnalysis) : string :=
  let sections := [] in
  let sections := push sections
    ("## " ++ toUpperCase (charAt0 feature) ++ slice1 feature ++
     " Permission Analysis" ++ newline) in
  let sections := push sections ("### Permission Flow Checklist" ++ newline) in
  let sections := push sections
    ("- [" ++ checkbox analysis.(hasPermissionRequest) ++
     "] Calls `requestPermission()`") in
  let sections := push sections
    ("- [" ++ checkbox analysis.(hasStatusCheck) ++
     "] Checks permission status") in
  let sections := push sections
    ("- [" ++ checkbox analysis.(hasDeniedHandling) ++
     "] Handles 'denied' status") in
  let sections := push sections
    ("- [" ++ checkbox analysis.(hasUndeterminedHandling) ++
     "] Handles initial/undetermined state") in
  let sections := push sections
    ("- [" ++ checkbox analysis.(hasErrorHandling) ++
     "] Has error handling") in
  let sections := push sections
    ("- [" ++ checkbox analysis.(hasUserExplanation) ++
     "] Explains why permission is needed") in
  let sections := push sections EmptyString in
  let sections :=
    if (0 <? List.length analysis.(issues))%nat then
      let sections := push sections ("### Issues Found" ++ newline) in
      let sections :=
        forEachPush (fun issue => "- " ++ issueMark ++ " " ++ issue)
          analysis.(issues) sections in
      push sections EmptyString
    else sections in
  let sections :=
    if (0 <? List.length analysis.(suggestions))%nat then
      let sections := push sections ("### Suggestions" ++ newline) in
      let sections :=
        forEachPush (fun s => "- " ++ suggestionMark ++ " " ++ s)
          analysis.(suggestions) sections in
      push sections EmptyString
    else sections in
  let sections := push sections ("### Recommended Pattern" ++ newline) in
  let sections := push sections "```tsx" in
  let sections := push sections (getRecommendedPattern feature) in
  let sections := push sections "```" in
  join newline sections.

Definition checkPermissions (args : CheckPermissionsArgs)
  : completion ToolResult :=
  let code := args.(code) in
  let feature := args.(feature) in
  if negb (ToBoolean code) || negb (ToBoolean feature) then
    Normal (textResult missingParameters)
  else if isFalsyProperty (getProperty featureApiMap (ToString feature)) then
    Normal (textResult invalidFeature)
  else
    code <- receiver code ;;
    feature <- receiver feature ;;
    analysis <- analyzePermissionPatterns code feature ;;
    let output := buildAnalysisOutput feature analysis in
    Normal (textResult output).

End Permissions.

(** ** The code checks of the setup validator

    [validateCodePatterns] and [buildValidationOutput] of
    src/tools/check-permissions.ts.  [validateSetup], which calls them, reads
    its arguments through [JSON.parse] and is not modelled. *)

Module Validate.

Record ValidationResult : Type :=
  { isValid : bool;
    errors : list string;
    warnings : list string;
    suggestions : list string }.

(** [result.warnings.push(x)] and [result.suggestions.push(x)]. *)
Definition pushWarning (r : ValidationResult) (x : string) :=
  {| isValid := r.(isValid);
     errors := r.(errors);
     warnings := push r.(warnings) x;
     suggestions := r.(suggestions) |}.

Definition pushSuggestion (r : ValidationResult) (x : string) :=
  {| isValid := r.(isValid);
     errors := r.(errors);
     warnings := r.(warnings);
     suggestions := push r.(suggestions) x |}.

Definition asyncMethods : list string :=
  [ "requestPermission";
    "getToken";
    "authenticate";
    "takePicture";
    "getCurrentPosition";
    "getStatus";
    "getInfo" ].

Definition promiseWarning (method : string) : string :=
  "The method `" ++ method ++
  "` returns a Promise. Make sure to use `await` or `.then()`.".

(** The loop over [asyncMethods]: the first method that triggers the
    warning ends it ([break]).  The regular expression the source builds in
    each round is never used, and building it cannot fail: the method names
    are letters only. *)
Fixpoint checkAsyncMethods (code : string) (methods : list string)
  (result : ValidationResult) : ValidationResult :=
  match methods with
  | [] => result
  | method :: rest =>
      if includes code ("." ++ method ++ "(")
         && negb (includes code "await")
         && negb (includes code ".then(")
      then pushWarning result (promiseWarning method)
      else checkAsyncMethods code rest result
  end.

Definition validateCodePatterns (code : string) (result : ValidationResult)
  : ValidationResult :=
  let result :=
    if includes code "@appolabs/appo" then
      if negb (includes code "getAppo")
         && negb (includes code "from '@appolabs/appo'")
      then pushWarning result
        "Make sure to import `getAppo` from '@appolabs/appo' to access the SDK instance."
      else result
    else result in
  let result :=
    if includes code "window.appo"
    then pushWarning result
      "Avoid accessing `window.appo` directly. Use `getAppo()` from the SDK for type safety and proper initialization."
    else result in
  let result := checkAsyncMethods code asyncMethods result in
  let result :=
    if (includes code "push.getToken"
        || includes code "camera.takePicture"
        || includes code "location.getCurrentPosition")
       && negb (includes code "requestPermission")
    then pushSuggestion result
      "Consider requesting permission before accessing protected features (push token, camera, location)."
    else result in
  let result :=
    if includes code "getAppo()"
       && negb (includes code "try")
       && negb (includes code "catch")
    then pushSuggestion result
      "Consider adding try/catch blocks around SDK calls to handle potential errors gracefully."
    else result in
  let result :=
    if includes code "useEffect"
       && includes code "onMessage"
       && negb (includes code "return")
    then pushWarning result
      "When using `appo.push.onMessage()` in useEffect, make sure to return the unsubscribe function for cleanup."
    else result in
  result.

(** The markers of the headings and bullets, as the bytes stand in the
    source file. *)
Definition passedMark : string :=
  string_of_list_ascii
    (map ascii_of_nat [195; 162; 197; 147; 226; 128; 166]).

Definition failedMark : string :=
  string_of_list_ascii (map ascii_of_nat [195; 162; 197; 146]).

Definition warningMark : string :=
  string_of_list_ascii
    (map ascii_of_nat [195; 162; 197; 161; 194; 160; 195; 175; 194; 184]).

Definition suggestionMark : string :=
  string_of_list_ascii
    (map ascii_of_nat [195; 176; 197; 184; 226; 128; 153; 194; 161]).

Definition looksGood : string :=
  "Your @appolabs/appo setup looks good! The SDK is properly installed and configured.".

Definition buildValidationOutput (result : ValidationResult) : string :=
  let sections := [] in
  let sections :=
    if result.(isValid) && (List.length result.(errors) =? 0)%nat
    then push sections
      ("## " ++ passedMark ++ " Setup Validation Passed" ++ newline)
    else push sections
      ("## " ++ failedMark ++ " Setup Validation Failed" ++ newline) in
  let sections :=
    if (0 <? List.length result.(errors))%nat then
      let sections := push sections ("### Errors" ++ newline) in
      let sections :=
        forEachPush (fun e => "- " ++ failedMark ++ " " ++ e)
          result.(errors) sections in
      push sections EmptyString
    else sections in
  let sections :=
    if (0 <? List.length result.(warnings))%nat then
      let sections := push sections ("### Warnings" ++ newline) in
      let sections :=
        forEachPush (fun w => "- " ++ warningMark ++ " " ++ w)
          result.(warnings) sections in
      push sections EmptyString
    else sections in
  let sections :=
    if (0 <? List.length result.(suggestions))%nat then
      let sections := push sections ("### Suggestions" ++ newline) in
      let sections :=
        forEachPush (fun s => "- " ++ suggestionMark ++ " " ++ s)
          result.(suggestions) sections in
      push sections EmptyString
    else sections in
  let sections :=
    if (List.length result.(errors) =? 0)%nat
       && (List.length result.(warnings) =? 0)%nat
       && (List.length result.(suggestions) =? 0)%nat
    then push sections looksGood
    else sections in
  let sections := push sections (newline ++ "### Quick Start" ++ newline) in
  let sections := push sections "```tsx" in
  let sections := push sections "import { getAppo } from '@appolabs/appo';" in
  let sections := push sections EmptyString in
  let sections := push sections "function MyComponent() {" in
  let sections := push sections "  const appo = getAppo();" in
  let sections := push sections EmptyString in
  let sections := push sections "  // Check if running in native app" in
  let sections := push sections "  if (appo.isNative) {" in
  let sections := push sections "    // Use native features" in
  let sections := push sections "  }" in
  let sections := push sections "}" in
  let sections := push sections "```" in
  join newline sections.

End Validate.

(** ** The tool dispatcher

    [handleToolCall] of tools/index, and the call the server makes of it.
    The argument object is the list of its own properties; each tool reads
    the fields it declares, an absent field being [undefined].  The four
    tools that are not modelled here are parameters. *)

Module Tools.

Definition Args : Type := list (string * JsValue).

(** [const { key } = args], for the field names the tools read; none of
    them is a name of [Object.prototype], so the value is the own property
    or [undefined]. *)
Definition field (args : Args) (key : string) : JsValue :=
  match ownProperty args key with
  | Some v => v
  | None => JsUndefined
  end.

Definition asDiagnoseIssueArgs (args : Args) : Diagnose.DiagnoseIssueArgs :=
  {| Diagnose.symptom := field args "symptom";
     Diagnose.feature := field args "feature";
     Diagnose.errorMessage := field args "errorMessage";
     Diagnose.platform := field args "platform" |}.

Definition asCheckPermissionsArgs (args : Args)
  : Permissions.CheckPermissionsArgs :=
  {| Permissions.code := field args "code";
     Permissions.feature := field args "feature" |}.

(** [args ?? {}]. *)
Definition orEmpty (args : option Args) : Args :=
  match args with
  | Some a => a
  | None => []
  end.

(** A stand-in for a tool that is not modelled, for the examples. *)
Definition someTool (args : Args) : completion ToolResult :=
  Normal (textResult "generated").

Section Dispatch.

Variables generateHook generateComponent scaffoldFeature validateSetup
  : Args -> completion ToolResult.

Definition handleToolCall (name : string) (args : Args)
  : completion ToolResult :=
  if String.eqb name "generate_hook" then generateHook args
  else if String.eqb name "generate_component" then generateComponent args
  else if String.eqb name "scaffold_feature" then scaffoldFeature args
  else if String.eqb name "validate_setup" then validateSetup args
  else if String.eqb name "check_permissions"
  then Permissions.checkPermissions (asCheckPermissionsArgs args)
  else if String.eqb name "diagnose_issue"
  then Diagnose.diagnoseIssue (asDiagnoseIssueArgs args)
  else Normal (textResult ("Unknown tool: " ++ name)).

(** The handler of [CallToolRequestSchema]:
    [handleToolCall(name, args ?? {})]. *)
Definition callTool (name : string) (args : option Args)
  : completion ToolResult :=
  handleToolCall name (orEmpty args).

End Dispatch.

End Tools.

(** ** Resource addresses

    [parseUri] of resources/index.  The regular expression
    [/^appo:\/\/(.+)$/] has no flag: [$] is the end of the text and [.] is
    any character but a line terminator (LF, CR, U+2028, U+2029). *)

Module Resources.

Record ParsedUri : Type :=
  { type : string;
    feature : option string }.

Definition lineTerminators : list string :=
  [ String (ascii_of_nat 10) EmptyString;
    String (ascii_of_nat 13) EmptyString;
    string_of_list_ascii (map ascii_of_nat [226; 128; 168]);
    string_of_list_ascii (map ascii_of_nat [226; 128; 169]) ].

(** [s] is matched by [.+] up to its end. *)
Definition dotPlus (s : string) : bool :=
  negb (String.eqb s EmptyString)
  && negb (existsb (includes s) lineTerminators).

(** The text after the prefix [k], when [s] starts with [k]. *)
Fixpoint afterPrefix (k s : string) {struct k} : option string :=
  match k, s with
  | EmptyString, _ => Some s
  | String _ _, EmptyString => None
  | String a k', String b s' =>
      if Ascii.eqb a b then afterPrefix k' s' else None
  end.

(** [s.split(sep)] for a separator of one character. *)
Fixpoint split (sep : ascii) (s : string) : list string :=
  match s with
  | EmptyString => [EmptyString]
  | String c s' =>
      if Ascii.eqb c sep then EmptyString :: split sep s'
      else match split sep s' with
           | head :: rest => String c head :: rest
           | [] => [String c EmptyString]
           end
  end.

Definition slash : ascii := ascii_of_nat 47.

Definition parseUri (uri : string) : option ParsedUri :=
  match afterPrefix "appo://" uri with
  | None => None
  | Some path =>
      if negb (dotPlus path) then None
      else
        let parts := split slash path in
        if (List.length parts =? 1)%nat then
          Some {| type := nth 0 parts EmptyString; feature := None |}
        else if (List.length parts =? 2)%nat then
          Some {| type := nth 0 parts EmptyString;
                  feature := Some (nth 1 parts EmptyString) |}
        else None
  end.

(** The address of a parsed resource: [appo://] and its path. *)
Definition pathOf (p : ParsedUri) : string :=
  p.(type) ++
  match p.(feature) with
  | Some f => "/" ++ f
  | None => EmptyString
  end.

Definition formatUri (p : ParsedUri) : string := "appo://" ++ pathOf p.

End Resources.

(** ** Notions the properties are stated with *)

(** A string that [toLowerCase] leaves alone. *)
Definition isLowerCase (s : string) : bool := String.eqb (toLowerCase s) s.

(** Text of ASCII characters only.  On such text [toLowerCase] is the
    JavaScript method exactly; the statements that tie a symptom to its
    search terms are made for such symptoms. *)
Definition isAsciiChar (c : ascii) : bool := (nat_of_ascii c <? 128)%nat.

Fixpoint isAscii (s : string) : bool :=
  match s with
  | EmptyString => true
  | String c s' => isAsciiChar c && isAscii s'
  end.






Module DiagnoseReport.
Import Diagnose.

(** The lines the report gives to one issue, as the specification lists
    them: the title, the causes as bullets, the solutions as bullets, and
    the code example between fences when there is one. *)
Definition issueBlock (issue : Issue) : list string :=
  ([ ("### " ++ issue.(title) ++ newline)%string; "**Possible Causes:**" ]
   ++ map (fun c => ("- " ++ c)%string) issue.(causes)
   ++ [ EmptyString; "**Solutions:**" ]
   ++ map (fun s => ("- " ++ s)%string) issue.(solutions)
   ++ [ EmptyString ]
   ++ (if ToBoolean issue.(codeExample)
       then [ "**Example Fix:**"; "```tsx"; ToString issue.(codeExample);
              "```"; EmptyString ]
       else []))%list.

(** The heading and the optional platform line. *)
Definition reportHead (platform : JsValue) : list string :=
  ("## Diagnosis Results" ++ newline)
  :: (if ToBoolean platform
      then [ "Platform: **" ++ ToString platform ++ "**" ++ newline ]
      else []).

Definition reportLines (issues : list Issue) (platform : JsValue)
  : list string :=
  (reportHead platform
   ++ flat_map issueBlock (firstn 3 issues)
   ++ [ "---"; closingNote ])%list.

(** The fixed parts of the generic report. *)
Definition checklist : list string :=
  [ "1. **Check native context:** Verify `appo.isNative` is true";
    "2. **Check permissions:** Ensure required permissions are granted";
    "3. **Check installation:** Verify `@appolabs/appo` is properly installed";
    "4. **Check console:** Look for errors in the console/logs";
    "5. **Test on device:** Some features only work on physical devices" ].

Definition debugSnippet : list string :=
  [ "```tsx";
    "import { getAppo } from '@appolabs/appo';";
    EmptyString;
    "function debugSdk() {";
    "  const appo = getAppo();";
    "  console.log('SDK Version:', appo.version);";
    "  console.log('Is Native:', appo.isNative);";
    "  appo.device.getInfo().then(info => {";
    "    console.log('Device:', info);";
    "  });";
    "}";
    "```" ].

(** A labelled line of the generic report, present when the field is
    truthy. *)
Definition echoLine (label : string) (v : JsValue) : list string :=
  if ToBoolean v then [ label ++ ToString v ] else [].

Definition genericLines (symptom feature errorMessage platform : JsValue)
  : list string :=
  ([ ("## Diagnosis" ++ newline)%string;
     ("**Symptom:** " ++ ToString symptom ++ newline)%string ]
   ++ echoLine "**Feature:** " feature
   ++ echoLine "**Error:** " errorMessage
   ++ echoLine "**Platform:** " platform
   ++ [ EmptyString; ("### General Troubleshooting Steps" ++ newline)%string ]
   ++ checklist
   ++ [ EmptyString; ("### Debug Code" ++ newline)%string ]
   ++ debugSnippet
   ++ [ EmptyString;
        "Please provide more details (error messages, code snippets) for a more specific diagnosis." ])%list.


(** The keywords of the catalogue that are not lowercase: each names an
    SDK method in camel case. *)
Definition camelCaseKeywords : list string :=
  [ "requestPermission returns denied";
    "getToken returns null";
    "isAvailable returns false";
    "takePicture returns null" ].

End DiagnoseReport.

Module PermissionsReport.
Import Permissions.

(** The analysis in closed form, as the specification describes it: six
    flags, each one a presence check on the snippet; then the issues, one
    for each protected method that is called in a snippet without the
    permission-request marker, one when the marker is missing, one when the
    denied state is not handled; then the suggestions. *)
Definition requestsPermission (code : string) : bool :=
  includes code "requestPermission".

Definition checksStatus (code : string) : bool :=
  includes code "permission" || includes code "status" ||
  includes code "'granted'" || includes code (dquote ++ "granted" ++ dquote).

Definition handlesDenied (code : string) : bool :=
  includes code "'denied'" || includes code (dquote ++ "denied" ++ dquote) ||
  includes code "=== 'denied'" ||
  includes code ("=== " ++ dquote ++ "denied" ++ dquote).

Definition handlesUndetermined (code : string) : bool :=
  includes code "'undetermined'" ||
  includes code (dquote ++ "undetermined" ++ dquote) ||
  includes code "null".

Definition handlesErrors (code : string) : bool :=
  includes code "try" && includes code "catch".

Definition explainsToUser (code : string) : bool :=
  includes code "modal" || includes code "Modal" ||
  includes code "dialog" || includes code "Dialog" ||
  includes code "alert" || includes code "confirm" ||
  includes code "explanation" || includes code "why" ||
  includes code "permission needed".

Definition unguardedCall (code method : string) : bool :=
  includes code ("." ++ method ++ "(") && negb (requestsPermission code).

Definition analysisOf (code feature : string) (methods : list string)
  : PermissionAnalysis :=
  {| hasPermissionRequest := requestsPermission code;
     hasStatusCheck := checksStatus code;
     hasDeniedHandling := handlesDenied code;
     hasUndeterminedHandling := handlesUndetermined code;
     hasErrorHandling := handlesErrors code;
     hasUserExplanation := explainsToUser code;
     issues :=
       (map protectedMethodIssue (filter (unguardedCall code) methods)
        ++ (if requestsPermission code then [] else [noRequestIssue feature])
        ++ (if handlesDenied code then [] else [noDeniedHandlingIssue]))%list;
     suggestions :=
       ((if explainsToUser code then []
         else ["Consider explaining to users WHY you need this permission before requesting it. This improves acceptance rates."])
        ++ (if handlesErrors code then []
            else ["Add try/catch blocks to handle potential errors during permission requests."])
        ++ (if handlesUndetermined code then []
            else ["Handle the 'undetermined' state - this is the initial state before the user makes a choice."]))%list
  |}.

(** The two straight-line parts of [analyzePermissionPatterns], named so
    that each can be studied alone: the flag assignments before the loop
    over the protected methods, and the assignments after it. *)
Definition flagsStage (code : string) : PermissionAnalysis :=
  let analysis :=
    {| hasPermissionRequest := false;
       hasStatusCheck := false;
       hasDeniedHandling := false;
       hasUndeterminedHandling := false;
       hasErrorHandling := false;
       hasUserExplanation := false;
       issues := [];
       suggestions := [] |} in
  let analysis :=
    if includes code "requestPermission"
    then setHasPermissionRequest analysis true else analysis in
  let analysis :=
    if includes code "permission" ||
       includes code "status" ||
       includes code "'granted'" ||
       includes code (dquote ++ "granted" ++ dquote)
    then setHasStatusCheck analysis true else analysis in
  let analysis :=
    if includes code "'denied'" ||
       includes code (dquote ++ "denied" ++ dquote) ||
       includes code "=== 'denied'" ||
       includes code ("=== " ++ dquote ++ "denied" ++ dquote)
    then setHasDeniedHandling analysis true else analysis in
  let analysis :=
    if includes code "'undetermined'" ||
       includes code (dquote ++ "undetermined" ++ dquote) ||
       includes code "null"
    then setHasUndeterminedHandling analysis true else analysis in
  let analysis :=
    if includes code "try" && includes code "catch"
    then setHasErrorHandling analysis true else analysis in
  let analysis :=
    if includes code "modal" ||
       includes code "Modal" ||
       includes code "dialog" ||
       includes code "Dialog" ||
       includes code "alert" ||
       includes code "confirm" ||
       includes code "explanation" ||
       includes code "why" ||
       includes code "permission needed"
    then setHasUserExplanation analysis true else analysis in
  analysis.

Definition finalStage (feature : string) (analysis : PermissionAnalysis)
  : PermissionAnalysis :=
  let analysis :=
    if negb analysis.(hasPermissionRequest)
    then pushIssue analysis (noRequestIssue feature) else analysis in
  let analysis :=
    if negb analysis.(hasDeniedHandling)
    then pushIssue analysis noDeniedHandlingIssue else analysis in
  let analysis :=
    if negb analysis.(hasUserExplanation)
    then pushSuggestion analysis
      "Consider explaining to users WHY you need this permission before requesting it. This improves acceptance rates."
    else analysis in
  let analysis :=
    if negb analysis.(hasErrorHandling)
    then pushSuggestion analysis
      "Add try/catch blocks to handle potential errors during permission requests."
    else analysis in
  let analysis :=
    if negb analysis.(hasUndeterminedHandling)
    then pushSuggestion analysis
      "Handle the 'undetermined' state - this is the initial state before the user makes a choice."
    else analysis in
  analysis.

(** Two snippets for the examples: one that requests the permission and
    handles the denied state, one that only fetches the token. *)
Definition guardedSnippet : string :=
  "const s = await appo.push.requestPermission(); if (s === 'denied') return; await appo.push.getToken();".

Definition tokenSnippet : string := "const t = await appo.push.getToken();".

(** The analysis of [analysisOf] as a function of its seven tests: the
    six flags and whether the protected method is called unguarded. *)
Definition analysisOfFlags (feature method : string)
  (b1 b2 b3 b4 b5 b6 u : bool) : PermissionAnalysis :=
  {| hasPermissionRequest := b1;
     hasStatusCheck := b2;
     hasDeniedHandling := b3;
     hasUndeterminedHandling := b4;
     hasErrorHandling := b5;
     hasUserExplanation := b6;
     issues :=
       (map protectedMethodIssue (if u then [method] else [])
        ++ (if b1 then [] else [noRequestIssue feature])
        ++ (if b3 then [] else [noDeniedHandlingIssue]))%list;
     suggestions :=
       ((if b6 then []
         else ["Consider explaining to users WHY you need this permission before requesting it. This improves acceptance rates."])
        ++ (if b5 then []
            else ["Add try/catch blocks to handle potential errors during permission requests."])
        ++ (if b4 then []
            else ["Handle the 'undetermined' state - this is the initial state before the user makes a choice."]))%list
  |}.

(** The issues that mention a word. *)
Definition mentioning (word : string) (l : list string) : list string :=
  filter (fun issue => includes issue word) l.

End PermissionsReport.

Module ValidateReport.
Import Validate.

(** [after] is [before] with at most [nw] warnings and at most [ns]
    suggestions added at the end, and nothing else changed. *)
Definition extends (nw ns : nat) (before after : ValidationResult) : Prop :=
  after.(isValid) = before.(isValid)
  /\ after.(errors) = before.(errors)
  /\ (exists added,
         after.(warnings) = (before.(warnings) ++ added)%list
         /\ (List.length added <= nw)%nat)
  /\ (exists added,
         after.(suggestions) = (before.(suggestions) ++ added)%list
         /\ (List.length added <= ns)%nat).

(** A call of [method] shows in the code. *)
Definition calls (code method : string) : bool :=
  includes code ("." ++ method ++ "(").

Definition passedHeading : string :=
  "## " ++ passedMark ++ " Setup Validation Passed".

Definition failedHeading : string :=
  "## " ++ failedMark ++ " Setup Validation Failed".

End ValidateReport.

(** ** Facts about strings and arrays of strings *)

Section StringFacts.

Lemma append_assoc (a b c : string) : (a ++ b) ++ c = a ++ b ++ c.
Proof.
  induction a as [|x a IH]; simpl; [reflexivity | now rewrite IH].
Qed.

Lemma append_empty_r (a : string) : a ++ EmptyString = a.
Proof.
  induction a as [|x a IH]; simpl; [reflexivity | now rewrite IH].
Qed.

Lemma startsWith_iff (s k : string) :
  startsWith s k = true <-> exists b, s = k ++ b.
Proof.
  revert s; induction k as [|x k IH]; intros s; simpl.
  - split; [intros _; now exists s | reflexivity].
  - destruct s as [|y s]; simpl.
    + split; [discriminate | intros [b Hb]; discriminate].
    + rewrite andb_true_iff, Ascii.eqb_eq, IH. split.
      * intros [-> [b ->]]. now exists b.
      * intros [b Hb]. injection Hb as -> ->. split; [reflexivity | now exists b].
Qed.

Lemma includes_iff (s k : string) :
  includes s k = true <-> exists a b, s = a ++ k ++ b.
Proof.
  induction s as [|y s IH]; simpl.
  - rewrite orb_false_r, startsWith_iff. split.
    + intros [b Hb]. now exists EmptyString, b.
    + intros [a [b Hab]]. destruct a; [now exists b | discriminate].
  - rewrite orb_true_iff, startsWith_iff, IH. split.
    + intros [[b Hb] | [a [b Hab]]].
      * now exists EmptyString, b.
      * exists (String y a), b. simpl. now rewrite Hab.
    + intros [a [b Hab]]. destruct a as [|x a]; simpl in Hab.
      * left. now exists b.
      * right. injection Hab as _ ->. now exists a, b.
Qed.




Lemma includes_trans (s m k : string) :
  includes s m = true -> includes m k = true -> includes s k = true.
Proof.
  rewrite !includes_iff. intros [a [b ->]] [c [d ->]].
  exists (a ++ c), (d ++ b). now rewrite !append_assoc.
Qed.

Lemma includes_append_l (s t k : string) :
  includes s k = true -> includes (s ++ t) k = true.
Proof.
  rewrite !includes_iff. intros [a [b ->]].
  exists a, (b ++ t). now rewrite !append_assoc.
Qed.

Lemma includes_append_r (s t k : string) :
  includes t k = true -> includes (s ++ t) k = true.
Proof.
  rewrite !includes_iff. intros [a [b ->]].
  exists (s ++ a), b. now rewrite !append_assoc.
Qed.

(** Joining a concatenation: the separator goes between two non-empty
    halves. *)
Lemma join_app (sep : string) (l1 l2 : list string) :
  l1 <> [] -> l2 <> [] ->
  join sep (l1 ++ l2)%list = join sep l1 ++ sep ++ join sep l2.
Proof.
  intros H1 H2. induction l1 as [|x l1 IH]; [congruence|].
  destruct l1 as [|y l1].
  - simpl. destruct l2; [congruence | reflexivity].
  - change (join sep ((x :: y :: l1) ++ l2)%list)
      with (x ++ sep ++ join sep ((y :: l1) ++ l2)%list).
    rewrite IH by discriminate.
    change (join sep (x :: y :: l1)) with (x ++ sep ++ join sep (y :: l1)).
    now rewrite !append_assoc.
Qed.





(** The text joined from an array that ends with [x] ends with [x]. *)
Lemma join_push (sep x : string) (l : list string) :
  exists before, join sep (push l x) = before ++ x.
Proof.
  unfold push. destruct l as [|y l].
  - now exists EmptyString.
  - rewrite join_app by discriminate.
    exists (join sep (y :: l) ++ sep). now rewrite append_assoc.
Qed.

Lemma forEachPush_map (f : string -> string) (a sections : list string) :
  forEachPush f a sections = (sections ++ map f a)%list.
Proof.
  unfold forEachPush, push. revert sections.
  induction a as [|x a IH]; intros sections; simpl.
  - now rewrite app_nil_r.
  - now rewrite IH, <- app_assoc.
Qed.

Lemma append_nonempty (a b : string) :
  a <> EmptyString -> a ++ b <> EmptyString.
Proof. destruct a; [congruence | discriminate]. Qed.

Lemma join_cons_nonempty (sep x : string) (l : list string) :
  x <> EmptyString -> join sep (x :: l) <> EmptyString.
Proof.
  intros Hx. destruct l; [exact Hx | now apply append_nonempty].
Qed.

End StringFacts.

(** ** Lowercasing and containment that ignores case *)

Section IgnoringCaseFacts.





End IgnoringCaseFacts.

(** ** The issue matcher: properties *)

Module DiagnoseProps.
Import Diagnose DiagnoseReport.

Lemma renderIssue_block (sections : list string) (issue : Issue) :
  renderIssue sections issue = (sections ++ issueBlock issue)%list.
Proof.
  unfold renderIssue, issueBlock. rewrite !forEachPush_map. unfold push.
  destruct (ToBoolean (codeExample issue));
    repeat rewrite <- app_assoc; reflexivity.
Qed.

Lemma fold_renderIssue (issues : list Issue) (sections : list string) :
  fold_left renderIssue issues sections
  = (sections ++ flat_map issueBlock issues)%list.
Proof.
  revert sections. induction issues as [|i issues IH]; intros sections; simpl.
  - now rewrite app_nil_r.
  - now rewrite IH, renderIssue_block, <- app_assoc.
Qed.

Lemma buildDiagnosisOutput_lines (issues : list Issue) (platform : JsValue) :
  buildDiagnosisOutput issues platform
  = join newline (reportLines issues platform).
Proof.
  unfold buildDiagnosisOutput, reportLines, reportHead, slice0.
  f_equal. rewrite fold_renderIssue. unfold push.
  destruct (ToBoolean platform); repeat rewrite <- app_assoc; reflexivity.
Qed.

Lemma buildGenericDiagnosis_lines (symptom feature errorMessage platform : JsValue) :
  buildGenericDiagnosis symptom feature errorMessage platform
  = join newline (genericLines symptom feature errorMessage platform).
Proof.
  unfold buildGenericDiagnosis, genericLines, echoLine.
  destruct (ToBoolean feature), (ToBoolean errorMessage), (ToBoolean platform);
    reflexivity.
Qed.



Lemma relevantIssues_narrowed (st : string) (f : JsValue) :
  featureIssues st f <> [] -> relevantIssues st f = featureIssues st f.
Proof.
  unfold relevantIssues. destruct (featureIssues st f); [congruence | reflexivity].
Qed.


Lemma relevantIssues_nonempty (st : string) (f : JsValue) :
  matchedIssues st <> [] -> relevantIssues st f <> [].
Proof.
  intros Hm. unfold relevantIssues.
  destruct (featureIssues st f); simpl; [exact Hm | discriminate].
Qed.


(** What [diagnoseIssue] does with a non-empty symptom. *)
Lemma diagnoseIssue_nonempty (s : string) (f e p : JsValue) :
  s <> EmptyString ->
  diagnoseIssue
    {| symptom := JsString s; feature := f; errorMessage := e; platform := p |}
  = Normal (textResult
      (if (List.length (relevantIssues (toLowerCase s) f) =? 0)%nat
       then buildGenericDiagnosis (JsString s) f e p
       else buildDiagnosisOutput (relevantIssues (toLowerCase s) f) p)).
Proof.
  intros Hs. unfold diagnoseIssue. simpl.
  destruct s as [|c s]; [congruence|]. simpl.
  now destruct (List.length _ =? 0)%nat.
Qed.

Lemma diagnoseIssue_report (s : string) (f e p : JsValue) :
  s <> EmptyString ->
  relevantIssues (toLowerCase s) f <> [] ->
  diagnoseIssue
    {| symptom := JsString s; feature := f; errorMessage := e; platform := p |}
  = Normal (textResult
      (buildDiagnosisOutput (relevantIssues (toLowerCase s) f) p)).
Proof.
  intros Hs Hr. rewrite diagnoseIssue_nonempty by exact Hs.
  destruct (relevantIssues (toLowerCase s) f); [congruence | reflexivity].
Qed.






(** Within the model, where every field is a string or absent,
    [diagnoseIssue] always returns a text that is not empty. *)
Lemma diagnoseIssue_always_answers (args : DiagnoseIssueArgs) :
  exists t, diagnoseIssue args = Normal (textResult t) /\ t <> EmptyString.
Proof.
  destruct args as [[|s] f e p];
    [exists symptomPrompt; split; [reflexivity | discriminate]|].
  destruct s as [|c s];
    [exists symptomPrompt; split; [reflexivity | discriminate]|].
  rewrite diagnoseIssue_nonempty by discriminate.
  eexists. split; [reflexivity|].
  destruct (List.length _ =? 0)%nat.
  - rewrite buildGenericDiagnosis_lines. discriminate.
  - rewrite buildDiagnosisOutput_lines. unfold reportLines, reportHead.
    cbn [app]. apply join_cons_nonempty. discriminate.
Qed.

(** C6: when the symptom is absent or the empty string, [diagnoseIssue]
    returns, as a normal response, one text item holding the request to
    describe the issue in the [symptom] parameter, whatever the other
    arguments are. *)
Theorem diagnose_asks_for_symptom (f e p : JsValue) :
  diagnoseIssue
    {| symptom := JsUndefined; feature := f; errorMessage := e; platform := p |}
  = Normal (textResult symptomPrompt)
  /\ diagnoseIssue
       {| symptom := JsString EmptyString; feature := f; errorMessage := e;
          platform := p |}
     = Normal (textResult symptomPrompt).
Proof. split; reflexivity. Qed.







Ltac keyword_case :=
  first [ left; vm_compute; reflexivity
        | right; unfold camelCaseKeywords; simpl; tauto ].

(** C9, as amended: every entry of the catalogue has at least one symptom
    keyword, one cause and one solution; every keyword is lowercase except
    four, each naming an SDK method in camel case; none of these four is
    lowercase; and every keyword, once lowercased as the matcher does,
    selects its entry. *)
Theorem catalogue_entries (issue : Issue) :
  In issue knownIssues ->
  (1 <= List.length issue.(symptoms))%nat
  /\ (1 <= List.length issue.(causes))%nat
  /\ (1 <= List.length issue.(solutions))%nat
  /\ Forall (fun k => isLowerCase k = true \/ In k camelCaseKeywords)
       issue.(symptoms)
  /\ Forall (fun k => matchesSymptom (toLowerCase k) issue = true)
       issue.(symptoms)
  /\ Forall (fun k => isLowerCase k = false) camelCaseKeywords.
Proof.
  intros Hin.
  assert (Hcamel : Forall (fun k => isLowerCase k = false) camelCaseKeywords)
    by (repeat constructor).
  unfold knownIssues in Hin. simpl in Hin.
  repeat (destruct Hin as [<- | Hin];
    [ split; [simpl; lia|]; split; [simpl; lia|]; split; [simpl; lia|];
      split; [repeat (apply Forall_cons; [keyword_case|]); apply Forall_nil|];
      split; [repeat (apply Forall_cons; [vm_compute; reflexivity|]);
              apply Forall_nil
             | exact Hcamel]
    | ]).
  destruct Hin.
Qed.

Lemma catalogue_entries_witness :
  In permissionAlwaysDenied knownIssues
  /\ Forall (fun k => isLowerCase k = true \/ In k camelCaseKeywords)
       permissionAlwaysDenied.(symptoms).
Proof.
  assert (Hin : In permissionAlwaysDenied knownIssues)
    by (right; left; reflexivity).
  split; [exact Hin|].
  apply (catalogue_entries permissionAlwaysDenied Hin).
Defined.

(** C9 as stated fails: the keyword [requestPermission returns denied] of
    the second entry is not lowercase. *)
Lemma catalogue_keyword_not_lowercase :
  ~ (forall issue, In issue knownIssues ->
       (1 <= List.length issue.(symptoms))%nat
       /\ (1 <= List.length issue.(causes))%nat
       /\ (1 <= List.length issue.(solutions))%nat
       /\ forall k, In k issue.(symptoms) -> isLowerCase k = true).
Proof.
  intros H.
  destruct (H permissionAlwaysDenied) as [_ [_ [_ Hlower]]];
    [right; left; reflexivity|].
  specialize (Hlower "requestPermission returns denied").
  assert (Hk : In "requestPermission returns denied"
                 permissionAlwaysDenied.(symptoms))
    by (simpl; tauto).
  apply Hlower in Hk. vm_compute in Hk. discriminate.
Qed.

End DiagnoseProps.

(** ** The permission pattern analyzer: properties *)

Module PermissionsProps.
Import Permissions PermissionsReport.

Lemma fold_checkMethod (code : string) (methods : list string)
  (a : PermissionAnalysis) :
  fold_left (checkMethod code) methods a
  = {| hasPermissionRequest := a.(hasPermissionRequest);
       hasStatusCheck := a.(hasStatusCheck);
       hasDeniedHandling := a.(hasDeniedHandling);
       hasUndeterminedHandling := a.(hasUndeterminedHandling);
       hasErrorHandling := a.(hasErrorHandling);
       hasUserExplanation := a.(hasUserExplanation);
       issues :=
         (a.(issues)
          ++ map protectedMethodIssue (filter (unguardedCall code) methods))%list;
       suggestions := a.(suggestions) |}.
Proof.
  revert a. induction methods as [|m methods IH]; intros a; simpl.
  - rewrite app_nil_r. now destruct a.
  - rewrite IH. unfold checkMethod, unguardedCall, requestsPermission.
    destruct (includes code ("." ++ m ++ "(")
              && negb (includes code "requestPermission")); simpl.
    + unfold push. now rewrite <- app_assoc.
    + reflexivity.
Qed.

(** [analyzePermissionPatterns] is its two straight-line parts around the
    loop. *)
Lemma analyzePermissionPatterns_stages (code feature : string) :
  analyzePermissionPatterns code feature
  = (protectedMethods <-
       match getProperty featureApiMap feature with
       | Own spec => Normal (Some spec.(protectedMethods))
       | Inherited => Normal None
       | Absent => Throw TypeError
       end ;;
     analysis <-
       match protectedMethods with
       | Some methods =>
           Normal (fold_left (checkMethod code) methods (flagsStage code))
       | None => Throw TypeError
       end ;;
     Normal (finalStage feature analysis)).
Proof. reflexivity. Qed.

Lemma flagsStage_closed (code : string) :
  flagsStage code
  = {| hasPermissionRequest := requestsPermission code;
       hasStatusCheck := checksStatus code;
       hasDeniedHandling := handlesDenied code;
       hasUndeterminedHandling := handlesUndetermined code;
       hasErrorHandling := handlesErrors code;
       hasUserExplanation := explainsToUser code;
       issues := [];
       suggestions := [] |}.
Proof.
  unfold flagsStage, requestsPermission, checksStatus, handlesDenied,
    handlesUndetermined, handlesErrors, explainsToUser.
  destruct (includes code "requestPermission"),
    (includes code "permission" || includes code "status" ||
     includes code "'granted'" || includes code (dquote ++ "granted" ++ dquote)),
    (includes code "'denied'" || includes code (dquote ++ "denied" ++ dquote) ||
     includes code "=== 'denied'" ||
     includes code ("=== " ++ dquote ++ "denied" ++ dquote)),
    (includes code "'undetermined'" ||
     includes code (dquote ++ "undetermined" ++ dquote) ||
     includes code "null"),
    (includes code "try" && includes code "catch"),
    (includes code "modal" || includes code "Modal" ||
     includes code "dialog" || includes code "Dialog" ||
     includes code "alert" || includes code "confirm" ||
     includes code "explanation" || includes code "why" ||
     includes code "permission needed");
    reflexivity.
Qed.

Lemma finalStage_closed (feature : string) (a : PermissionAnalysis) :
  finalStage feature a
  = {| hasPermissionRequest := a.(hasPermissionRequest);
       hasStatusCheck := a.(hasStatusCheck);
       hasDeniedHandling := a.(hasDeniedHandling);
       hasUndeterminedHandling := a.(hasUndeterminedHandling);
       hasErrorHandling := a.(hasErrorHandling);
       hasUserExplanation := a.(hasUserExplanation);
       issues :=
         (a.(issues)
          ++ (if a.(hasPermissionRequest) then [] else [noRequestIssue feature])
          ++ (if a.(hasDeniedHandling) then [] else [noDeniedHandlingIssue]))%list;
       suggestions :=
         (a.(suggestions)
          ++ (if a.(hasUserExplanation) then []
              else ["Consider explaining to users WHY you need this permission before requesting it. This improves acceptance rates."])
          ++ (if a.(hasErrorHandling) then []
              else ["Add try/catch blocks to handle potential errors during permission requests."])
          ++ (if a.(hasUndeterminedHandling) then []
              else ["Handle the 'undetermined' state - this is the initial state before the user makes a choice."]))%list
    |}.
Proof.
  unfold finalStage.
  generalize (noRequestIssue feature). generalize noDeniedHandlingIssue.
  (* the texts of the suggestions play no part *)
  repeat match goal with
  | |- context [@cons string ?s nil] =>
      tryif is_var s then fail else (generalize s; intro)
  end.
  intros i2 i1. destruct a as [b1 b2 b3 b4 b5 b6 found suggested].
  destruct b1, b3, b4, b5, b6; cbn; unfold pushIssue, pushSuggestion, push;
    cbn; rewrite <- ?app_assoc; cbn [app]; rewrite ?app_nil_r; reflexivity.
Qed.

(** On a feature of the table the source computes the analysis of the
    specification. *)
Lemma analyzePermissionPatterns_own (code feature : string) (spec : FeatureApi) :
  getProperty featureApiMap feature = Own spec ->
  analyzePermissionPatterns code feature
  = Normal (analysisOf code feature spec.(protectedMethods)).
Proof.
  intros Hown. rewrite analyzePermissionPatterns_stages, Hown. cbn [bind].
  rewrite fold_checkMethod, finalStage_closed, flagsStage_closed.
  reflexivity.
Qed.

Lemma includes_nonempty (s k : string) :
  k <> EmptyString -> includes s k = true -> s <> EmptyString.
Proof.
  intros Hk H ->. destruct k; [congruence | discriminate].
Qed.

Lemma existsb_eqb_notin (x : string) (l : list string) :
  ~ In x l -> existsb (String.eqb x) l = false.
Proof.
  intros Hn. apply not_true_is_false. intros H.
  apply existsb_exists in H as [y [Hy Heq]].
  apply String.eqb_eq in Heq. now subst.
Qed.

Lemma ownProperty_notin {A : Type} (o : list (string * A)) (key : string) :
  ~ In key (keys o) -> ownProperty o key = None.
Proof.
  induction o as [|[k v] o IH]; simpl; [reflexivity|].
  intros Hn. destruct (String.eqb_spec k key); [tauto|].
  apply IH. tauto.
Qed.

(** A call with a non-empty snippet and a feature of the table answers
    with the rendered analysis. *)
Lemma checkPermissions_own (c f : string) (spec : FeatureApi) :
  c <> EmptyString ->
  getProperty featureApiMap f = Own spec ->
  checkPermissions {| code := JsString c; feature := JsString f |}
  = Normal (textResult
      (buildAnalysisOutput f (analysisOf c f spec.(protectedMethods)))).
Proof.
  intros Hc Hown. unfold checkPermissions.
  cbn [code feature ToString receiver].
  destruct c as [|x c]; [congruence|].
  destruct f as [|y f]; [discriminate|].
  cbn [ToBoolean negb orb]. rewrite Hown. cbn [isFalsyProperty bind].
  now rewrite (analyzePermissionPatterns_own _ _ spec Hown).
Qed.

(** C3: with feature [camera] and a snippet that holds [.takePicture(] and
    nowhere [requestPermission], the analysis has [hasPermissionRequest]
    false; exactly one of its issues mentions [takePicture]; the issue
    saying that no [requestPermission()] call was found is there too.  The
    list is these two issues, followed by the issue about the denied state
    when the snippet does not handle it. *)
Theorem camera_without_request (c : string) :
  includes c ".takePicture(" = true ->
  includes c "requestPermission" = false ->
  exists analysis,
    analyzePermissionPatterns c "camera" = Normal analysis
    /\ checkPermissions {| code := JsString c; feature := JsString "camera" |}
       = Normal (textResult (buildAnalysisOutput "camera" analysis))
    /\ analysis.(hasPermissionRequest) = false
    /\ mentioning "takePicture" analysis.(issues)
       = [ protectedMethodIssue "takePicture" ]
    /\ In (noRequestIssue "camera") analysis.(issues)
    /\ analysis.(issues)
       = ([ protectedMethodIssue "takePicture"; noRequestIssue "camera" ]
          ++ (if analysis.(hasDeniedHandling) then []
              else [ noDeniedHandlingIssue ]))%list.
Proof.
  intros Hcall Hreq.
  assert (Hown : getProperty featureApiMap "camera"
                 = Own {| api := "appo.camera";
                          protectedMethods := ["takePicture"] |})
    by reflexivity.
  assert (Hc : c <> EmptyString)
    by (apply (includes_nonempty c ".takePicture("); [discriminate | exact Hcall]).
  exists (analysisOf c "camera" ["takePicture"]).
  split; [exact (analyzePermissionPatterns_own c "camera" _ Hown)|].
  split; [exact (checkPermissions_own c "camera" _ Hc Hown)|].
  assert (Hissues :
    issues (analysisOf c "camera" ["takePicture"])
    = ([ protectedMethodIssue "takePicture"; noRequestIssue "camera" ]
       ++ (if handlesDenied c then [] else [ noDeniedHandlingIssue ]))%list).
  { unfold analysisOf, issues, unguardedCall, requestsPermission.
    cbn [filter map].
    change ("." ++ "takePicture" ++ "(") with ".takePicture(".
    rewrite Hcall, Hreq. reflexivity. }
  split; [exact Hreq|].
  rewrite Hissues. cbn [hasDeniedHandling analysisOf].
  split; [| split; [right; left; reflexivity | reflexivity]].
  destruct (handlesDenied c); vm_compute; reflexivity.
Qed.

Lemma camera_without_request_witness :
  includes "const photo = await appo.camera.takePicture();" ".takePicture("
  = true
  /\ includes "const photo = await appo.camera.takePicture();"
       "requestPermission" = false
  /\ exists analysis,
       analyzePermissionPatterns
         "const photo = await appo.camera.takePicture();" "camera"
       = Normal analysis
       /\ analysis.(issues)
          = [ protectedMethodIssue "takePicture"; noRequestIssue "camera";
              noDeniedHandlingIssue ].
Proof.
  assert (H1 : includes "const photo = await appo.camera.takePicture();"
                 ".takePicture(" = true) by (vm_compute; reflexivity).
  assert (H2 : includes "const photo = await appo.camera.takePicture();"
                 "requestPermission" = false) by (vm_compute; reflexivity).
  split; [exact H1|]. split; [exact H2|].
  destruct (camera_without_request _ H1 H2)
    as [analysis [Hrun [_ [_ [_ [_ Hissues]]]]]].
  exists analysis. split; [exact Hrun|].
  rewrite Hissues.
  replace (hasDeniedHandling analysis) with false; [reflexivity|].
  vm_compute in Hrun. injection Hrun as <-. reflexivity.
Defined.

(** C4: when the snippet holds both [requestPermission] and ['denied'] and
    the feature is push, camera or location, the analysis has
    [hasPermissionRequest] and [hasDeniedHandling] true and no issue at
    all: neither the missing-request issue, nor the denied-handling issue,
    nor an issue about a protected method. *)
Theorem request_and_denied_handled (c f : string) :
  includes c "requestPermission" = true ->
  includes c "'denied'" = true ->
  In f ["push"; "camera"; "location"] ->
  exists analysis,
    analyzePermissionPatterns c f = Normal analysis
    /\ checkPermissions {| code := JsString c; feature := JsString f |}
       = Normal (textResult (buildAnalysisOutput f analysis))
    /\ analysis.(hasPermissionRequest) = true
    /\ analysis.(hasDeniedHandling) = true
    /\ ~ In (noRequestIssue f) analysis.(issues)
    /\ ~ In noDeniedHandlingIssue analysis.(issues)
    /\ (forall method, ~ In (protectedMethodIssue method) analysis.(issues))
    /\ analysis.(issues) = [].
Proof.
  intros Hreq Hden Hf.
  assert (Hc : c <> EmptyString)
    by (apply (includes_nonempty c "requestPermission");
        [discriminate | exact Hreq]).
  assert (Hown : exists spec, getProperty featureApiMap f = Own spec).
  { simpl in Hf. destruct Hf as [<- | [<- | [<- | []]]]; eexists; reflexivity. }
  destruct Hown as [spec Hown].
  assert (Hdenied : handlesDenied c = true)
    by (unfold handlesDenied; now rewrite Hden).
  assert (Hissues : issues (analysisOf c f spec.(protectedMethods)) = []).
  { unfold analysisOf, issues. rewrite Hdenied.
    unfold requestsPermission. rewrite Hreq.
    replace (filter (unguardedCall c) (protectedMethods spec)) with (@nil string);
      [reflexivity|].
    symmetry. induction (protectedMethods spec) as [|m ms IH]; [reflexivity|].
    simpl. unfold unguardedCall at 1, requestsPermission.
    now rewrite Hreq, andb_false_r. }
  exists (analysisOf c f spec.(protectedMethods)).
  split; [exact (analyzePermissionPatterns_own c f spec Hown)|].
  split; [exact (checkPermissions_own c f spec Hc Hown)|].
  split; [exact Hreq|]. split; [exact Hdenied|].
  rewrite Hissues.
  split; [intros []|]. split; [intros []|]. split; [intros m []| reflexivity].
Qed.

Lemma request_and_denied_handled_witness :
  includes guardedSnippet "requestPermission" = true
  /\ includes guardedSnippet "'denied'" = true
  /\ In "push" ["push"; "camera"; "location"]
  /\ exists analysis,
       analyzePermissionPatterns guardedSnippet "push" = Normal analysis
       /\ analysis.(hasPermissionRequest) = true
       /\ analysis.(hasDeniedHandling) = true
       /\ analysis.(issues) = [].
Proof.
  assert (H1 : includes guardedSnippet "requestPermission" = true)
    by (vm_compute; reflexivity).
  assert (H2 : includes guardedSnippet "'denied'" = true)
    by (vm_compute; reflexivity).
  assert (H3 : In "push" ["push"; "camera"; "location"])
    by (left; reflexivity).
  split; [exact H1|]. split; [exact H2|]. split; [exact H3|].
  destruct (request_and_denied_handled guardedSnippet "push" H1 H2 H3)
    as [analysis [Hrun [_ [Hr [Hd [_ [_ [_ Hi]]]]]]]].
  exists analysis. repeat split; assumption.
Defined.

(** C8, as amended: a call whose feature is neither push, camera nor
    location, nor the name of a property that every object inherits from
    [Object.prototype], returns normally: the invalid-feature message, which
    lists push, camera, location, when code and feature are both non-empty;
    the missing-parameter message when one of them is empty or absent. *)
Theorem unknown_feature_message (c f : JsValue) :
  ~ In (ToString f) ["push"; "camera"; "location"] ->
  ~ In (ToString f) ObjectPrototype ->
  checkPermissions {| code := c; feature := f |}
  = Normal (textResult
      (if ToBoolean c && ToBoolean f then invalidFeature
       else missingParameters))
  /\ invalidFeature
     = "Invalid feature. Permission-required features are: push, camera, location".
Proof.
  intros Hown Hinh. split; [| reflexivity].
  unfold checkPermissions. cbn [code feature].
  destruct (ToBoolean c); [| reflexivity].
  destruct (ToBoolean f); [| reflexivity].
  cbn [negb orb andb]. unfold getProperty.
  rewrite (ownProperty_notin featureApiMap (ToString f) Hown).
  now rewrite (existsb_eqb_notin _ _ Hinh).
Qed.

Lemma unknown_feature_message_witness :
  ~ In "bluetooth" ["push"; "camera"; "location"]
  /\ ~ In "bluetooth" ObjectPrototype
  /\ checkPermissions
       {| code := JsString "appo.bluetooth.scan();";
          feature := JsString "bluetooth" |}
     = Normal (textResult
         "Invalid feature. Permission-required features are: push, camera, location").
Proof.
  assert (H1 : ~ In (ToString (JsString "bluetooth"))
                 ["push"; "camera"; "location"])
    by (simpl; intuition discriminate).
  assert (H2 : ~ In (ToString (JsString "bluetooth")) ObjectPrototype)
    by (simpl; intuition discriminate).
  split; [exact H1|]. split; [exact H2|].
  destruct (unknown_feature_message (JsString "appo.bluetooth.scan();")
              (JsString "bluetooth") H1 H2) as [Hcall Hmsg].
  rewrite Hcall, <- Hmsg. reflexivity.
Defined.

(** C8 as stated fails: with the feature [bluetooth] and an empty or absent
    snippet, the answer is the missing-parameter message, not the
    invalid-feature message. *)
Lemma unknown_feature_without_code :
  checkPermissions
    {| code := JsString EmptyString; feature := JsString "bluetooth" |}
  <> Normal (textResult invalidFeature)
  /\ checkPermissions
       {| code := JsUndefined; feature := JsString "bluetooth" |}
     <> Normal (textResult invalidFeature).
Proof. split; vm_compute; discriminate. Qed.

(** C5 fails on this call: [constructor] is a property every object
    inherits, so the feature passes the validity test, the inherited value
    has no [protectedMethods], and the loop over them throws. *)
Theorem inherited_feature_name_throws :
  checkPermissions
    {| code := JsString tokenSnippet; feature := JsString "constructor" |}
  = Throw TypeError.
Proof. vm_compute. reflexivity. Qed.

(** The same happens for every inherited name and every non-empty
    snippet. *)
Lemma every_inherited_name_throws (c f : string) :
  c <> EmptyString -> In f ObjectPrototype ->
  checkPermissions {| code := JsString c; feature := JsString f |}
  = Throw TypeError.
Proof.
  intros Hc Hf. destruct c as [|x c]; [congruence|].
  unfold ObjectPrototype in Hf. simpl in Hf.
  repeat (destruct Hf as [<- | Hf]; [reflexivity|]). destruct Hf.
Qed.

Lemma buildAnalysisOutput_nonempty (f : string) (a : PermissionAnalysis) :
  buildAnalysisOutput f a <> EmptyString.
Proof.
  unfold buildAnalysisOutput.
  destruct (0 <? List.length (issues a))%nat,
    (0 <? List.length (suggestions a))%nat;
    rewrite ?forEachPush_map; unfold push; cbn [app]; discriminate.
Qed.

(** Apart from the inherited names, [checkPermissions] always returns a
    text that is not empty. *)
Lemma checkPermissions_answers (c f : JsValue) :
  ~ In (ToString f) ObjectPrototype ->
  exists t,
    checkPermissions {| code := c; feature := f |} = Normal (textResult t)
    /\ t <> EmptyString.
Proof.
  intros Hinh.
  destruct c as [|[|x c]];
    try (exists missingParameters; split; [reflexivity | discriminate]).
  destruct f as [|[|y f]];
    try (exists missingParameters; split; [reflexivity | discriminate]).
  cbn [ToString] in Hinh.
  destruct (ownProperty featureApiMap (String y f)) as [spec|] eqn:Hown.
  - assert (Hget : getProperty featureApiMap (String y f) = Own spec)
      by (unfold getProperty; now rewrite Hown).
    eexists. split.
    + apply (checkPermissions_own _ _ spec); [discriminate | exact Hget].
    + apply buildAnalysisOutput_nonempty.
  - exists invalidFeature. split; [| discriminate].
    unfold checkPermissions. cbn [code feature ToBoolean negb orb ToString].
    unfold getProperty. rewrite Hown.
    now rewrite (existsb_eqb_notin _ _ Hinh).
Qed.

(** C10: with the empty string as code the answer is the missing-parameter
    message, whatever the feature; it is the answer given when code is
    absent, and it is not the text of any permission analysis. *)
Theorem empty_code_is_missing (f : JsValue) :
  checkPermissions {| code := JsString EmptyString; feature := f |}
  = Normal (textResult missingParameters)
  /\ checkPermissions {| code := JsString EmptyString; feature := f |}
     = checkPermissions {| code := JsUndefined; feature := f |}
  /\ forall feature analysis,
       buildAnalysisOutput feature analysis <> missingParameters.
Proof.
  split; [reflexivity|]. split; [reflexivity|].
  intros feature analysis. unfold buildAnalysisOutput.
  destruct (0 <? List.length (issues analysis))%nat,
    (0 <? List.length (suggestions analysis))%nat;
    rewrite ?forEachPush_map; unfold push; cbn [app]; discriminate.
Qed.

End PermissionsProps.

(** ** More facts about strings *)

Section CaseFacts.

Lemma mapString_app (g : ascii -> ascii) (a b : string) :
  mapString g (a ++ b) = mapString g a ++ mapString g b.
Proof.
  induction a as [|x a IH]; simpl; [reflexivity | now rewrite IH].
Qed.

(** Of the model; of the JavaScript method on ASCII text. *)
Lemma toLowerCase_app (a b : string) :
  toLowerCase (a ++ b) = toLowerCase a ++ toLowerCase b.
Proof. apply mapString_app. Qed.

(** A string that a character map leaves alone is left alone piece by
    piece. *)
Lemma mapString_fixed_app (g : ascii -> ascii) (a b : string) :
  mapString g (a ++ b) = a ++ b ->
  mapString g a = a /\ mapString g b = b.
Proof.
  induction a as [|x a IH]; simpl; intros H; [now split|].
  injection H as Hx Hrest. destruct (IH Hrest) as [Ha Hb].
  split; [now rewrite Hx, Ha | exact Hb].
Qed.

Lemma lowerAscii_idempotent (c : ascii) :
  lowerAscii (lowerAscii c) = lowerAscii c.
Proof. destruct c as [[] [] [] [] [] [] [] []]; reflexivity. Qed.

Lemma toLowerCase_idempotent (s : string) :
  toLowerCase (toLowerCase s) = toLowerCase s.
Proof.
  unfold toLowerCase. induction s as [|c s IH]; simpl; [reflexivity|].
  now rewrite lowerAscii_idempotent, IH.
Qed.

Lemma isLowerCase_toLowerCase (s : string) :
  isLowerCase (toLowerCase s) = true.
Proof.
  unfold isLowerCase. rewrite toLowerCase_idempotent. apply String.eqb_refl.
Qed.

(** Every piece of a lowercase string is lowercase. *)
Lemma isLowerCase_includes (s k : string) :
  isLowerCase s = true -> includes s k = true -> isLowerCase k = true.
Proof.
  unfold isLowerCase. rewrite !String.eqb_eq, includes_iff.
  intros Hs [a [b ->]]. unfold toLowerCase in *.
  apply mapString_fixed_app in Hs as [_ Hs].
  now apply mapString_fixed_app in Hs as [Hk _].
Qed.

End CaseFacts.

(** ** The issue matcher: further properties *)

Module DiagnoseExtra.
Import Diagnose DiagnoseReport DiagnoseProps.

Lemma matchesSymptom_more_text (st a b : string) (issue : Issue) :
  matchesSymptom st issue = true ->
  matchesSymptom (a ++ st ++ b) issue = true.
Proof.
  unfold matchesSymptom. rewrite !existsb_exists.
  intros [k [Hk Hinc]]. exists k. split; [exact Hk|].
  now apply includes_append_r, includes_append_l.
Qed.

(** X1: for text of ASCII characters, text added before or after a
    symptom never loses a candidate: every catalogue entry matched by [s]
    is matched by [a ++ s ++ b], so a symptom that gets a diagnosis report
    still gets one (never the generic fallback) when more text is put
    around it. *)
Theorem more_text_keeps_candidates (s a b : string) (f e p : JsValue) :
  isAscii (a ++ s ++ b) = true ->
  incl (matchedIssues (toLowerCase s))
       (matchedIssues (toLowerCase (a ++ s ++ b)))
  /\ (matchedIssues (toLowerCase s) <> [] ->
      diagnoseIssue
        {| symptom := JsString (a ++ s ++ b); feature := f;
           errorMessage := e; platform := p |}
      = Normal (textResult
          (buildDiagnosisOutput
             (relevantIssues (toLowerCase (a ++ s ++ b)) f) p))).
Proof.
  intros _.
  assert (Hincl : incl (matchedIssues (toLowerCase s))
                       (matchedIssues (toLowerCase (a ++ s ++ b)))).
  { intros issue. unfold matchedIssues. rewrite !filter_In.
    intros [Hin Hm]. split; [exact Hin|].
    rewrite !toLowerCase_app. now apply matchesSymptom_more_text. }
  split; [exact Hincl|]. intros Hne.
  assert (Hs : s <> EmptyString).
  { intros ->. apply Hne. vm_compute. reflexivity. }
  apply diagnoseIssue_report.
  - intros H. apply Hs. destruct a; [destruct s; [reflexivity | discriminate]
                                    | discriminate].
  - apply relevantIssues_nonempty.
    destruct (matchedIssues (toLowerCase s)) as [|i l] eqn:Hm; [congruence|].
    intros Hnil. specialize (Hincl i (or_introl eq_refl)).
    rewrite Hnil in Hincl. destruct Hincl.
Qed.

Lemma more_text_keeps_candidates_witness :
  isAscii ("On iOS the " ++ "Token Is Null" ++ " after login") = true
  /\ matchedIssues (toLowerCase "Token Is Null") <> []
  /\ diagnoseIssue
       {| symptom := JsString ("On iOS the " ++ "Token Is Null" ++ " after login");
          feature := JsUndefined; errorMessage := JsUndefined;
          platform := JsUndefined |}
     = Normal (textResult (buildDiagnosisOutput [pushTokenIsNull] JsUndefined)).
Proof.
  assert (Ha : isAscii ("On iOS the " ++ "Token Is Null" ++ " after login")
               = true) by reflexivity.
  assert (Hne : matchedIssues (toLowerCase "Token Is Null") <> [])
    by (vm_compute; discriminate).
  split; [exact Ha|]. split; [exact Hne|].
  destruct (more_text_keeps_candidates "Token Is Null" "On iOS the "
              " after login" JsUndefined JsUndefined JsUndefined Ha)
    as [_ Hreport].
  rewrite (Hreport Hne). vm_compute. reflexivity.
Defined.

(** X2: a feature hint only narrows: every issue reported is a candidate
    of the symptom alone, whatever the hint; and when the hint selects at
    least one candidate, every issue reported has the hint in its
    lowercased title or in one of its keywords. *)
Theorem hint_only_narrows (st : string) (f : JsValue) :
  incl (relevantIssues st f) (matchedIssues st)
  /\ (ToBoolean f = true ->
      filter (matchesFeature (ToString f)) (matchedIssues st) <> [] ->
      Forall (fun issue => matchesFeature (ToString f) issue = true)
        (relevantIssues st f)).
Proof.
  split.
  - unfold relevantIssues, featureIssues.
    destruct (ToBoolean f); [| destruct (0 <? _)%nat; apply incl_refl].
    destruct (0 <? _)%nat; [| apply incl_refl].
    intros issue Hin. now apply filter_In in Hin as [Hin _].
  - intros Hf Hne.
    rewrite relevantIssues_narrowed; unfold featureIssues; rewrite Hf;
      [| exact Hne].
    apply Forall_forall. intros issue Hin.
    now apply filter_In in Hin as [_ Hm].
Qed.

Lemma hint_only_narrows_witness :
  ToBoolean (JsString "camera") = true
  /\ filter (matchesFeature "camera")
       (matchedIssues (toLowerCase "camera not working in browser")) <> []
  /\ Forall (fun issue => matchesFeature "camera" issue = true)
       (relevantIssues (toLowerCase "camera not working in browser")
          (JsString "camera"))
  /\ map title (matchedIssues (toLowerCase "camera not working in browser"))
     = [ "SDK not working in browser"; "Camera not capturing" ].
Proof.
  assert (Hf : ToBoolean (JsString "camera") = true) by reflexivity.
  assert (Hne : filter (matchesFeature (ToString (JsString "camera")))
                  (matchedIssues (toLowerCase "camera not working in browser"))
                <> []) by (vm_compute; discriminate).
  split; [exact Hf|]. split; [exact Hne|].
  destruct (hint_only_narrows (toLowerCase "camera not working in browser")
              (JsString "camera")) as [_ Hall].
  split; [exact (Hall Hf Hne) | vm_compute; reflexivity].
Defined.

(** X3: when at least one issue is reported, the response depends on the
    symptom only through its lowercase form and does not depend on the
    error message: two calls that differ in the case of the symptom and in
    the error message return the same report. *)
Theorem report_ignores_case_and_error (s1 s2 : string) (f e1 e2 p : JsValue) :
  s1 <> EmptyString -> s2 <> EmptyString ->
  toLowerCase s1 = toLowerCase s2 ->
  relevantIssues (toLowerCase s1) f <> [] ->
  diagnoseIssue
    {| symptom := JsString s1; feature := f; errorMessage := e1;
       platform := p |}
  = diagnoseIssue
      {| symptom := JsString s2; feature := f; errorMessage := e2;
         platform := p |}.
Proof.
  intros H1 H2 Hlow Hr.
  rewrite !diagnoseIssue_report; try assumption.
  - now rewrite Hlow.
  - now rewrite <- Hlow.
Qed.

Lemma report_ignores_case_and_error_witness :
  "TOKEN IS NULL" <> EmptyString
  /\ "token is null" <> EmptyString
  /\ toLowerCase "TOKEN IS NULL" = toLowerCase "token is null"
  /\ relevantIssues (toLowerCase "TOKEN IS NULL") JsUndefined <> []
  /\ diagnoseIssue
       {| symptom := JsString "TOKEN IS NULL"; feature := JsUndefined;
          errorMessage := JsString "E_PUSH"; platform := JsString "ios" |}
     = diagnoseIssue
         {| symptom := JsString "token is null"; feature := JsUndefined;
            errorMessage := JsUndefined; platform := JsString "ios" |}.
Proof.
  assert (H1 : "TOKEN IS NULL" <> EmptyString) by discriminate.
  assert (H2 : "token is null" <> EmptyString) by discriminate.
  assert (H3 : toLowerCase "TOKEN IS NULL" = toLowerCase "token is null")
    by reflexivity.
  assert (H4 : relevantIssues (toLowerCase "TOKEN IS NULL") JsUndefined <> [])
    by (vm_compute; discriminate).
  repeat (split; [assumption|]).
  exact (report_ignores_case_and_error _ _ JsUndefined (JsString "E_PUSH")
           JsUndefined (JsString "ios") H1 H2 H3 H4).
Defined.

(** X4: the feature hint is compared as it is written with the lowercased
    title: a hint that holds an uppercase ASCII letter matches no title, so
    it selects an issue only through a keyword that holds it. *)
Theorem uppercase_hint_misses_titles (f : string) (issue : Issue) :
  isLowerCase f = false ->
  includes (toLowerCase issue.(title)) f = false
  /\ matchesFeature f issue
     = existsb (fun s => includes s f) issue.(symptoms).
Proof.
  intros Hf.
  assert (Hmiss : includes (toLowerCase issue.(title)) f = false).
  { apply not_true_is_false. intros Hinc.
    apply (isLowerCase_includes _ _ (isLowerCase_toLowerCase _)) in Hinc.
    congruence. }
  split; [exact Hmiss|]. unfold matchesFeature. now rewrite Hmiss.
Qed.

Lemma uppercase_hint_misses_titles_witness :
  isLowerCase "Camera" = false
  /\ matchesFeature "Camera" cameraNotCapturing = false
  /\ matchesFeature "camera" cameraNotCapturing = true.
Proof.
  assert (Hf : isLowerCase "Camera" = false) by reflexivity.
  split; [exact Hf|].
  destruct (uppercase_hint_misses_titles "Camera" cameraNotCapturing Hf)
    as [_ Hm].
  split; [rewrite Hm|]; vm_compute; reflexivity.
Defined.

End DiagnoseExtra.

(** ** The permission pattern analyzer: further properties *)

Module PermissionsExtra.
Import Permissions PermissionsReport PermissionsProps.

Lemma own_feature (f : string) :
  In f ["push"; "camera"; "location"] ->
  exists a m,
    getProperty featureApiMap f = Own {| api := a; protectedMethods := [m] |}.
Proof.
  simpl. intros [<- | [<- | [<- | []]]]; do 2 eexists; reflexivity.
Qed.

Lemma includes_more_text (c a b k : string) :
  includes c k = true -> includes (a ++ c ++ b) k = true.
Proof. intros H. now apply includes_append_r, includes_append_l. Qed.

Ltac flag_grows :=
  rewrite ?orb_true_iff, ?andb_true_iff;
  intuition (auto using includes_more_text).

(** X5: text added around a snippet never turns a flag of the analysis
    off, and so never adds a suggestion: each of the six flags that holds
    for [c] holds for [a ++ c ++ b], and every suggestion made for the
    longer snippet is made for [c]. *)
Theorem more_code_keeps_flags (c a b f : string) :
  In f ["push"; "camera"; "location"] ->
  exists short long,
    analyzePermissionPatterns c f = Normal short
    /\ analyzePermissionPatterns (a ++ c ++ b) f = Normal long
    /\ (short.(hasPermissionRequest) = true ->
        long.(hasPermissionRequest) = true)
    /\ (short.(hasStatusCheck) = true -> long.(hasStatusCheck) = true)
    /\ (short.(hasDeniedHandling) = true -> long.(hasDeniedHandling) = true)
    /\ (short.(hasUndeterminedHandling) = true ->
        long.(hasUndeterminedHandling) = true)
    /\ (short.(hasErrorHandling) = true -> long.(hasErrorHandling) = true)
    /\ (short.(hasUserExplanation) = true ->
        long.(hasUserExplanation) = true)
    /\ incl long.(suggestions) short.(suggestions).
Proof.
  intros Hf. destruct (own_feature f Hf) as [api [m Hown]].
  do 2 eexists.
  split; [exact (analyzePermissionPatterns_own c f _ Hown)|].
  split; [exact (analyzePermissionPatterns_own (a ++ c ++ b) f _ Hown)|].
  cbn [analysisOf hasPermissionRequest hasStatusCheck hasDeniedHandling
       hasUndeterminedHandling hasErrorHandling hasUserExplanation
       suggestions protectedMethods].
  assert (H4 : handlesUndetermined c = true ->
               handlesUndetermined (a ++ c ++ b) = true)
    by (unfold handlesUndetermined; flag_grows).
  assert (H5 : handlesErrors c = true -> handlesErrors (a ++ c ++ b) = true)
    by (unfold handlesErrors; flag_grows).
  assert (H6 : explainsToUser c = true -> explainsToUser (a ++ c ++ b) = true)
    by (unfold explainsToUser; flag_grows).
  split; [unfold requestsPermission; flag_grows|].
  split; [unfold checksStatus; flag_grows|].
  split; [unfold handlesDenied; flag_grows|].
  split; [exact H4|]. split; [exact H5|]. split; [exact H6|].
  intros x.
  destruct (handlesUndetermined c), (handlesErrors c), (explainsToUser c);
    try rewrite (H4 eq_refl); try rewrite (H5 eq_refl);
    try rewrite (H6 eq_refl);
    destruct (handlesUndetermined (a ++ c ++ b)),
      (handlesErrors (a ++ c ++ b)), (explainsToUser (a ++ c ++ b));
    cbn [app In]; tauto.
Qed.

Lemma more_code_keeps_flags_witness :
  In "push" ["push"; "camera"; "location"]
  /\ exists short long,
       analyzePermissionPatterns tokenSnippet "push" = Normal short
       /\ analyzePermissionPatterns
            ("try { " ++ tokenSnippet ++ " } catch (e) { alert(e); }") "push"
          = Normal long
       /\ incl long.(suggestions) short.(suggestions).
Proof.
  assert (Hf : In "push" ["push"; "camera"; "location"])
    by (left; reflexivity).
  split; [exact Hf|].
  destruct (more_code_keeps_flags tokenSnippet "try { "
              " } catch (e) { alert(e); }" "push" Hf)
    as [short [long [H1 [H2 [_ [_ [_ [_ [_ [_ Hincl]]]]]]]]]].
  exists short, long. repeat split; assumption.
Defined.

(** X6: an issue about a protected method never comes alone: when the
    analysis of a snippet for push, camera or location holds the issue
    that a protected method is used without requesting permission, the
    flag [hasPermissionRequest] is false and the issue that no
    [requestPermission()] call was found is in the list too. *)
Theorem protected_issue_comes_with_missing_request (c f method : string) :
  In f ["push"; "camera"; "location"] ->
  exists analysis,
    analyzePermissionPatterns c f = Normal analysis
    /\ (In (protectedMethodIssue method) analysis.(issues) ->
        analysis.(hasPermissionRequest) = false
        /\ In (noRequestIssue f) analysis.(issues)).
Proof.
  intros Hf. destruct (own_feature f Hf) as [api [m Hown]].
  eexists. split; [exact (analyzePermissionPatterns_own c f _ Hown)|].
  cbn [analysisOf hasPermissionRequest issues protectedMethods filter].
  unfold unguardedCall.
  destruct (requestsPermission c).
  - rewrite andb_false_r. cbn [map app negb].
    destruct (handlesDenied c); cbn [In]; [tauto|].
    intros [H | []]. discriminate.
  - intros _. split; [reflexivity|].
    apply in_or_app. right. left. reflexivity.
Qed.

Lemma protected_issue_comes_with_missing_request_witness :
  In "push" ["push"; "camera"; "location"]
  /\ exists analysis,
       analyzePermissionPatterns tokenSnippet "push" = Normal analysis
       /\ In (protectedMethodIssue "getToken") analysis.(issues)
       /\ In (noRequestIssue "push") analysis.(issues).
Proof.
  assert (Hf : In "push" ["push"; "camera"; "location"])
    by (left; reflexivity).
  split; [exact Hf|].
  destruct (protected_issue_comes_with_missing_request tokenSnippet "push"
              "getToken" Hf) as [analysis [Hrun Himp]].
  exists analysis. split; [exact Hrun|].
  assert (Hin : In (protectedMethodIssue "getToken") analysis.(issues)).
  { vm_compute in Hrun. injection Hrun as <-. left. reflexivity. }
  split; [exact Hin | exact (proj2 (Himp Hin))].
Defined.

(** X7: the analysis of a snippet for push, camera or location holds at
    most three issues and at most three suggestions. *)
Theorem analysis_is_short (c f : string) :
  In f ["push"; "camera"; "location"] ->
  exists analysis,
    analyzePermissionPatterns c f = Normal analysis
    /\ (List.length analysis.(issues) <= 3)%nat
    /\ (List.length analysis.(suggestions) <= 3)%nat.
Proof.
  intros Hf. destruct (own_feature f Hf) as [api [m Hown]].
  eexists. split; [exact (analyzePermissionPatterns_own c f _ Hown)|].
  cbn [analysisOf issues suggestions protectedMethods filter].
  destruct (unguardedCall c m), (requestsPermission c), (handlesDenied c),
    (explainsToUser c), (handlesErrors c), (handlesUndetermined c);
    cbn [map app List.length]; lia.
Qed.

Lemma analysis_is_short_witness :
  In "camera" ["push"; "camera"; "location"]
  /\ exists analysis,
       analyzePermissionPatterns EmptyString "camera" = Normal analysis
       /\ (List.length analysis.(issues) <= 3)%nat
       /\ (List.length analysis.(suggestions) <= 3)%nat.
Proof.
  assert (Hf : In "camera" ["push"; "camera"; "location"])
    by (right; left; reflexivity).
  split; [exact Hf|].
  exact (analysis_is_short EmptyString "camera" Hf).
Defined.

(** X8: the denied flag is the test for the quoted literal: for push,
    camera or location, [hasDeniedHandling] holds exactly when the snippet
    holds ['denied'] in single or in double quotes; the two tests for a
    comparison with [===] never change the flag. *)
Theorem denied_flag_is_the_literal_test (c f : string) :
  In f ["push"; "camera"; "location"] ->
  exists analysis,
    analyzePermissionPatterns c f = Normal analysis
    /\ analysis.(hasDeniedHandling)
       = (includes c "'denied'"
          || includes c (dquote ++ "denied" ++ dquote)).
Proof.
  intros Hf. destruct (own_feature f Hf) as [api [m Hown]].
  eexists. split; [exact (analyzePermissionPatterns_own c f _ Hown)|].
  cbn [analysisOf hasDeniedHandling]. unfold handlesDenied.
  destruct (includes c "'denied'") eqn:H1; [reflexivity|].
  destruct (includes c (dquote ++ "denied" ++ dquote)) eqn:H2; [reflexivity|].
  destruct (includes c "=== 'denied'") eqn:H3.
  { rewrite (includes_trans c "=== 'denied'" "'denied'" H3) in H1;
      [discriminate | reflexivity]. }
  destruct (includes c ("=== " ++ dquote ++ "denied" ++ dquote)) eqn:H4;
    [| reflexivity].
  rewrite (includes_trans c _ (dquote ++ "denied" ++ dquote) H4) in H2;
    [discriminate | reflexivity].
Qed.

Lemma denied_flag_is_the_literal_test_witness :
  In "location" ["push"; "camera"; "location"]
  /\ exists analysis,
       analyzePermissionPatterns "if (status === 'denied') {}" "location"
       = Normal analysis
       /\ analysis.(hasDeniedHandling) = true.
Proof.
  assert (Hf : In "location" ["push"; "camera"; "location"])
    by (right; right; left; reflexivity).
  split; [exact Hf|].
  destruct (denied_flag_is_the_literal_test "if (status === 'denied') {}"
              "location" Hf) as [analysis [Hrun Hflag]].
  exists analysis. split; [exact Hrun|]. rewrite Hflag. reflexivity.
Defined.

(** What the rendered analysis shows, for every value of the flags. *)
Lemma rendering_cases (f m : string) (b1 b2 b3 b4 b5 b6 u : bool) :
  In (f, m) [ ("push", "getToken"); ("camera", "takePicture");
              ("location", "getCurrentPosition") ] ->
  forall analysis,
    analysis = analysisOfFlags f m b1 b2 b3 b4 b5 b6 u ->
    includes (buildAnalysisOutput f analysis) "### Issues Found"
    = (0 <? List.length analysis.(issues))%nat
    /\ includes (buildAnalysisOutput f analysis) "### Suggestions"
       = (0 <? List.length analysis.(suggestions))%nat
    /\ includes (buildAnalysisOutput f analysis)
         "- [x] Calls `requestPermission()`" = analysis.(hasPermissionRequest)
    /\ includes (buildAnalysisOutput f analysis)
         "- [x] Checks permission status" = analysis.(hasStatusCheck)
    /\ includes (buildAnalysisOutput f analysis)
         "- [x] Handles 'denied' status" = analysis.(hasDeniedHandling)
    /\ includes (buildAnalysisOutput f analysis)
         "- [x] Handles initial/undetermined state"
       = analysis.(hasUndeterminedHandling)
    /\ includes (buildAnalysisOutput f analysis) "- [x] Has error handling"
       = analysis.(hasErrorHandling)
    /\ includes (buildAnalysisOutput f analysis)
         "- [x] Explains why permission is needed"
       = analysis.(hasUserExplanation).
Proof.
  intros Hf analysis ->. simpl in Hf.
  destruct Hf as [Hf | [Hf | [Hf | []]]]; injection Hf as <- <-;
    destruct b1, b2, b3, b4, b5, b6, u; vm_compute; repeat split.
Qed.

(** X9: the rendered analysis agrees with the analysis: for push, camera
    or location and any snippet, the text has the heading of the issues
    exactly when there are issues, the heading of the suggestions exactly
    when there are suggestions, and each of the six checklist lines is
    ticked exactly when its flag holds. *)
Theorem rendering_agrees_with_analysis (c f : string) :
  In f ["push"; "camera"; "location"] ->
  exists analysis,
    analyzePermissionPatterns c f = Normal analysis
    /\ includes (buildAnalysisOutput f analysis) "### Issues Found"
       = (0 <? List.length analysis.(issues))%nat
    /\ includes (buildAnalysisOutput f analysis) "### Suggestions"
       = (0 <? List.length analysis.(suggestions))%nat
    /\ includes (buildAnalysisOutput f analysis)
         "- [x] Calls `requestPermission()`" = analysis.(hasPermissionRequest)
    /\ includes (buildAnalysisOutput f analysis)
         "- [x] Checks permission status" = analysis.(hasStatusCheck)
    /\ includes (buildAnalysisOutput f analysis)
         "- [x] Handles 'denied' status" = analysis.(hasDeniedHandling)
    /\ includes (buildAnalysisOutput f analysis)
         "- [x] Handles initial/undetermined state"
       = analysis.(hasUndeterminedHandling)
    /\ includes (buildAnalysisOutput f analysis) "- [x] Has error handling"
       = analysis.(hasErrorHandling)
    /\ includes (buildAnalysisOutput f analysis)
         "- [x] Explains why permission is needed"
       = analysis.(hasUserExplanation).
Proof.
  intros Hf.
  assert (Hown : exists m,
             In (f, m) [ ("push", "getToken"); ("camera", "takePicture");
                         ("location", "getCurrentPosition") ]
             /\ exists a, getProperty featureApiMap f
                          = Own {| api := a; protectedMethods := [m] |}).
  { simpl in Hf. destruct Hf as [<- | [<- | [<- | []]]]; eexists;
      (split; [| eexists; reflexivity]); simpl; tauto. }
  destruct Hown as [m [Hfm [a Hown]]].
  eexists. split; [exact (analyzePermissionPatterns_own c f _ Hown)|].
  apply (rendering_cases f m (requestsPermission c) (checksStatus c)
           (handlesDenied c) (handlesUndetermined c) (handlesErrors c)
           (explainsToUser c) (unguardedCall c m) Hfm).
  reflexivity.
Qed.

Lemma rendering_agrees_with_analysis_witness :
  In "push" ["push"; "camera"; "location"]
  /\ exists analysis,
       analyzePermissionPatterns guardedSnippet "push" = Normal analysis
       /\ includes (buildAnalysisOutput "push" analysis) "### Issues Found"
          = false
       /\ includes (buildAnalysisOutput "push" analysis)
            "- [x] Handles 'denied' status" = true.
Proof.
  assert (Hf : In "push" ["push"; "camera"; "location"])
    by (left; reflexivity).
  split; [exact Hf|].
  destruct (rendering_agrees_with_analysis guardedSnippet "push" Hf)
    as [analysis [Hrun [Hi [_ [_ [_ [Hd _]]]]]]].
  exists analysis. split; [exact Hrun|].
  rewrite Hi, Hd. vm_compute in Hrun. injection Hrun as <-.
  split; reflexivity.
Defined.

End PermissionsExtra.

(** ** The code checks of the setup validator: properties *)

Module ValidateProps.
Import Validate ValidateReport.

Lemma extends_refl (nw ns : nat) (r : ValidationResult) : extends nw ns r r.
Proof.
  repeat split; exists []; rewrite app_nil_r; split; try reflexivity;
    simpl; lia.
Qed.

Lemma extends_warning (nw ns : nat) (r r' : ValidationResult) (x : string) :
  extends nw ns r r' -> extends (S nw) ns r (pushWarning r' x).
Proof.
  intros [Hv [He [[w [Hw Hlw]] Hs]]]. repeat split; try assumption.
  exists (w ++ [x])%list. cbn [pushWarning warnings]. unfold push.
  rewrite Hw, <- app_assoc. split; [reflexivity|].
  rewrite length_app. simpl. lia.
Qed.

Lemma extends_suggestion (nw ns : nat) (r r' : ValidationResult) (x : string) :
  extends nw ns r r' -> extends nw (S ns) r (pushSuggestion r' x).
Proof.
  intros [Hv [He [Hw [sg [Hs Hls]]]]]. repeat split; try assumption.
  exists (sg ++ [x])%list. cbn [pushSuggestion suggestions]. unfold push.
  rewrite Hs, <- app_assoc. split; [reflexivity|].
  rewrite length_app. simpl. lia.
Qed.

Lemma extends_more (nw ns nw' ns' : nat) (r r' : ValidationResult) :
  (nw <= nw')%nat -> (ns <= ns')%nat ->
  extends nw ns r r' -> extends nw' ns' r r'.
Proof.
  intros Hn Hm [Hv [He [[w [Hw Hlw]] [sg [Hs Hls]]]]].
  repeat split; try assumption; [exists w | exists sg]; split;
    try assumption; lia.
Qed.

Lemma extends_if_warning (nw ns : nat) (r r' : ValidationResult)
  (c : bool) (x : string) :
  extends nw ns r r' ->
  extends (S nw) ns r (if c then pushWarning r' x else r').
Proof.
  intros H. destruct c; [now apply extends_warning|].
  apply (extends_more nw ns); [lia | lia | exact H].
Qed.

Lemma extends_if_suggestion (nw ns : nat) (r r' : ValidationResult)
  (c : bool) (x : string) :
  extends nw ns r r' ->
  extends nw (S ns) r (if c then pushSuggestion r' x else r').
Proof.
  intros H. destruct c; [now apply extends_suggestion|].
  apply (extends_more nw ns); [lia | lia | exact H].
Qed.

(** The loop with its [break], as a search. *)
Lemma checkAsyncMethods_find (code : string) (methods : list string)
  (r : ValidationResult) :
  checkAsyncMethods code methods r
  = if includes code "await" || includes code ".then(" then r
    else match find (calls code) methods with
         | Some method => pushWarning r (promiseWarning method)
         | None => r
         end.
Proof.
  induction methods as [|m methods IH]; cbn [checkAsyncMethods find].
  - now destruct (_ || _).
  - rewrite IH. clear IH. fold (calls code m).
    destruct (calls code m), (includes code "await"),
      (includes code ".then("); reflexivity.
Qed.

Lemma extends_checkAsyncMethods (nw ns : nat) (code : string)
  (methods : list string) (r r' : ValidationResult) :
  extends nw ns r r' ->
  extends (S nw) ns r (checkAsyncMethods code methods r').
Proof.
  intros H. rewrite checkAsyncMethods_find.
  destruct (_ || _); [| destruct (find _ _)];
    try (now apply extends_warning);
    apply (extends_more nw ns); try lia; exact H.
Qed.

(** X10: [validateCodePatterns] only adds to the lists of warnings and
    suggestions: it leaves [isValid] and the errors as they are, keeps the
    warnings and suggestions it is given in their order, and adds at most
    four warnings and at most two suggestions after them. *)
Theorem code_checks_only_add (code : string) (r : ValidationResult) :
  extends 4 2 r (validateCodePatterns code r).
Proof.
  unfold validateCodePatterns.
  apply extends_if_warning, extends_if_suggestion, extends_if_suggestion,
    extends_checkAsyncMethods, extends_if_warning.
  destruct (includes code "@appolabs/appo");
    [apply extends_if_warning |]; apply extends_refl.
Qed.

(** X11: the check for promises that are not awaited reports one method
    at most, the first of the list of asynchronous methods that the code
    calls, and reports nothing when the code holds [await] or [.then(]
    anywhere. *)
Theorem first_unawaited_call_is_reported (code : string)
  (r : ValidationResult) :
  checkAsyncMethods code asyncMethods r
  = if includes code "await" || includes code ".then(" then r
    else match find (calls code) asyncMethods with
         | Some method => pushWarning r (promiseWarning method)
         | None => r
         end.
Proof. apply checkAsyncMethods_find. Qed.

(** X12: the heading of the validation report says Passed exactly when
    [isValid] holds and there is no error, and Failed otherwise; the report
    always ends with the closing fence of the Quick Start example; and a
    result without errors, warnings and suggestions gets the line saying
    that the setup looks good, also when [isValid] is false. *)
Theorem validation_heading (r : ValidationResult) :
  startsWith (buildValidationOutput r) passedHeading
  = r.(isValid) && (List.length r.(errors) =? 0)%nat
  /\ startsWith (buildValidationOutput r) failedHeading
     = negb (r.(isValid) && (List.length r.(errors) =? 0)%nat)
  /\ (exists before, buildValidationOutput r = before ++ "```")
  /\ forall valid,
       includes
         (buildValidationOutput
            {| isValid := valid; errors := []; warnings := [];
               suggestions := [] |})
         looksGood = true.
Proof.
  split; [| split; [| split]].
  - unfold buildValidationOutput.
    destruct (isValid r && (List.length (errors r) =? 0)%nat),
      (0 <? List.length (errors r))%nat,
      (0 <? List.length (warnings r))%nat,
      (0 <? List.length (suggestions r))%nat,
      ((List.length (errors r) =? 0)%nat
       && (List.length (warnings r) =? 0)%nat
       && (List.length (suggestions r) =? 0)%nat);
      rewrite ?forEachPush_map; unfold push; cbn [app]; reflexivity.
  - unfold buildValidationOutput.
    destruct (isValid r && (List.length (errors r) =? 0)%nat),
      (0 <? List.length (errors r))%nat,
      (0 <? List.length (warnings r))%nat,
      (0 <? List.length (suggestions r))%nat,
      ((List.length (errors r) =? 0)%nat
       && (List.length (warnings r) =? 0)%nat
       && (List.length (suggestions r) =? 0)%nat);
      rewrite ?forEachPush_map; unfold push; cbn [app]; reflexivity.
  - unfold buildValidationOutput. apply join_push.
  - intros []; vm_compute; reflexivity.
Qed.

End ValidateProps.

(** ** The tool dispatcher: properties *)

Module ToolsProps.
Import Tools.

Section Dispatch.

Variables generateHook generateComponent scaffoldFeature validateSetup
  : Args -> completion ToolResult.

(** X13: through the dispatcher, the tool [diagnose_issue] answers every
    call with a text that is not empty, and so does [check_permissions]
    when the feature is not the name of a property inherited from
    [Object.prototype]; a call without an argument object gets the request
    for the symptom, respectively for code and feature. *)
Theorem dispatcher_answers (args : option Args) :
  let call :=
    callTool generateHook generateComponent scaffoldFeature validateSetup in
  (exists t,
      call "diagnose_issue" args = Normal (textResult t)
      /\ t <> EmptyString)
  /\ (~ In (ToString (field (orEmpty args) "feature")) ObjectPrototype ->
      exists t,
        call "check_permissions" args = Normal (textResult t)
        /\ t <> EmptyString)
  /\ call "diagnose_issue" None
     = Normal (textResult Diagnose.symptomPrompt)
  /\ call "check_permissions" None
     = Normal (textResult Permissions.missingParameters).
Proof.
  intros call. split; [| split; [| split; reflexivity]].
  - apply DiagnoseProps.diagnoseIssue_always_answers.
  - intros Hf.
    apply (PermissionsProps.checkPermissions_answers
             (field (orEmpty args) "code") (field (orEmpty args) "feature")
             Hf).
Qed.

(** X14: the dispatcher catches nothing: a call of [check_permissions]
    whose code is not empty and whose feature is the name of a property
    inherited from [Object.prototype] throws a [TypeError] out of
    [handleToolCall]. *)
Theorem dispatcher_lets_the_error_through (args : Args) (c f : string) :
  field args "code" = JsString c -> c <> EmptyString ->
  field args "feature" = JsString f -> In f ObjectPrototype ->
  callTool generateHook generateComponent scaffoldFeature validateSetup
    "check_permissions" (Some args)
  = Throw TypeError.
Proof.
  intros Hc Hne Hf Hin. unfold callTool, handleToolCall, orEmpty.
  cbn [String.eqb Ascii.eqb Bool.eqb]. unfold asCheckPermissionsArgs.
  rewrite Hc, Hf.
  now apply PermissionsProps.every_inherited_name_throws.
Qed.

End Dispatch.

Lemma dispatcher_lets_the_error_through_witness :
  field [("code", JsString "x"); ("feature", JsString "toString")] "code"
  = JsString "x"
  /\ "x" <> EmptyString
  /\ field [("code", JsString "x"); ("feature", JsString "toString")] "feature"
     = JsString "toString"
  /\ In "toString" ObjectPrototype
  /\ callTool someTool someTool someTool someTool "check_permissions"
       (Some [("code", JsString "x"); ("feature", JsString "toString")])
     = Throw TypeError.
Proof.
  assert (H1 : field [("code", JsString "x"); ("feature", JsString "toString")]
                 "code" = JsString "x") by reflexivity.
  assert (H2 : "x" <> EmptyString) by discriminate.
  assert (H3 : field [("code", JsString "x"); ("feature", JsString "toString")]
                 "feature" = JsString "toString") by reflexivity.
  assert (H4 : In "toString" ObjectPrototype) by (simpl; tauto).
  repeat (split; [assumption|]).
  exact (dispatcher_lets_the_error_through someTool someTool someTool someTool
           _ "x" "toString" H1 H2 H3 H4).
Defined.

End ToolsProps.

(** ** Resource addresses: properties *)

Module ResourcesProps.
Import Resources.

Lemma afterPrefix_iff (k s rest : string) :
  afterPrefix k s = Some rest <-> s = k ++ rest.
Proof.
  revert s. induction k as [|a k IH]; intros s; simpl.
  - split; [now intros [= ->] | now intros ->].
  - destruct s as [|b s]; [split; discriminate|].
    destruct (Ascii.eqb_spec a b) as [<- | Hne].
    + rewrite IH. split; [now intros -> | now intros [= ->]].
    + split; [discriminate | intros [= Hab _]; congruence].
Qed.

Lemma split_no_separator (sep : ascii) (s : string) :
  includes s (String sep EmptyString) = false ->
  split sep s = [s].
Proof.
  induction s as [|c s IH]; [reflexivity|].
  cbn [includes startsWith split]. rewrite Ascii.eqb_sym.
  destruct (Ascii.eqb c sep); [discriminate|].
  cbn [andb orb]. intros H. now rewrite (IH H).
Qed.

Lemma split_at_separator (sep : ascii) (t f : string) :
  includes t (String sep EmptyString) = false ->
  split sep (t ++ String sep f) = t :: split sep f.
Proof.
  induction t as [|c t IH]; cbn [includes startsWith split append].
  - intros _. now rewrite Ascii.eqb_refl.
  - rewrite Ascii.eqb_sym. destruct (Ascii.eqb c sep); [discriminate|].
    cbn [andb orb]. intros H. now rewrite (IH H).
Qed.

Lemma split_not_empty (sep : ascii) (s : string) : split sep s <> [].
Proof.
  induction s as [|c s IH]; cbn [split]; [discriminate|].
  destruct (Ascii.eqb c sep); [discriminate|].
  destruct (split sep s); discriminate.
Qed.

(** Joining the pieces with the separator gives the text back. *)
Lemma join_split (sep : ascii) (s : string) :
  join (String sep EmptyString) (split sep s) = s.
Proof.
  induction s as [|c s IH]; cbn [split]; [reflexivity|].
  destruct (Ascii.eqb_spec c sep) as [-> | Hne].
  - destruct (split sep s) as [|h rest] eqn:Hs;
      [now apply split_not_empty in Hs|].
    change (join (String sep EmptyString) (EmptyString :: h :: rest))
      with (String sep (join (String sep EmptyString) (h :: rest))).
    now rewrite IH.
  - destruct (split sep s) as [|h rest] eqn:Hs;
      [now apply split_not_empty in Hs|].
    rewrite <- IH. destruct rest; reflexivity.
Qed.

(** No piece holds the separator. *)
Lemma split_pieces (sep : ascii) (s : string) :
  Forall (fun piece => includes piece (String sep EmptyString) = false)
    (split sep s).
Proof.
  induction s as [|c s IH]; cbn [split]; [now repeat constructor|].
  destruct (Ascii.eqb c sep) eqn:Hc; [now constructor|].
  destruct (split sep s) as [|h rest] eqn:Hs;
    [now apply split_not_empty in Hs|].
  inversion IH as [|? ? Hh Hrest]; subst. constructor; [| exact Hrest].
  cbn [includes startsWith]. rewrite Ascii.eqb_sym, Hc. exact Hh.
Qed.

(** X15: an address built from a type, or from a type and a feature, is
    parsed back into them: when neither holds a slash and the path is
    accepted by [.+] (it is not empty and holds no line terminator),
    [parseUri] returns the type alone for [appo://type] and the type with
    the feature for [appo://type/feature]; the feature, and with a feature
    the type, may be empty. *)
Theorem parseUri_of_formatUri (p : ParsedUri) :
  includes p.(type) "/" = false ->
  match p.(feature) with
  | Some f => includes f "/" = false
  | None => True
  end ->
  dotPlus (pathOf p) = true ->
  parseUri (formatUri p) = Some p.
Proof.
  unfold parseUri, formatUri.
  rewrite (proj2 (afterPrefix_iff "appo://" _ (pathOf p)) eq_refl).
  destruct p as [t [f|]]; unfold pathOf; cbn [type feature];
    intros Ht Hf Hdot; rewrite Hdot; cbn [negb].
  - change (t ++ "/" ++ f) with (t ++ String slash f).
    rewrite (split_at_separator slash t f Ht), (split_no_separator slash f Hf).
    reflexivity.
  - rewrite append_empty_r in *.
    rewrite (split_no_separator slash t Ht). reflexivity.
Qed.

Lemma parseUri_of_formatUri_witness :
  includes "examples" "/" = false
  /\ includes "camera" "/" = false
  /\ dotPlus (pathOf {| type := "examples"; feature := Some "camera" |}) = true
  /\ parseUri "appo://examples/camera"
     = Some {| type := "examples"; feature := Some "camera" |}.
Proof.
  assert (H1 : includes "examples" "/" = false) by reflexivity.
  assert (H2 : includes "camera" "/" = false) by reflexivity.
  assert (H3 : dotPlus (pathOf {| type := "examples";
                                  feature := Some "camera" |}) = true)
    by reflexivity.
  split; [exact H1|]. split; [exact H2|]. split; [exact H3|].
  exact (parseUri_of_formatUri
           {| type := "examples"; feature := Some "camera" |} H1 H2 H3).
Defined.

(** X16: whatever [parseUri] accepts is an address of that form: when it
    returns a result, the text is [appo://] followed by the type, and by a
    slash and the feature when there is one; neither piece holds a slash;
    and the path is not empty and holds no line terminator.  So a text
    without the prefix, the bare prefix, a path of three or more pieces
    and a path with a line break are all refused. *)
Theorem parseUri_accepts_addresses (uri : string) (p : ParsedUri) :
  parseUri uri = Some p ->
  uri = formatUri p
  /\ includes p.(type) "/" = false
  /\ match p.(feature) with
     | Some f => includes f "/" = false
     | None => True
     end
  /\ dotPlus (pathOf p) = true.
Proof.
  unfold parseUri, formatUri.
  destruct (afterPrefix "appo://" uri) as [path|] eqn:Hpre; [| discriminate].
  apply afterPrefix_iff in Hpre.
  destruct (dotPlus path) eqn:Hdot; cbn [negb]; [| discriminate].
  pose proof (join_split slash path) as Hjoin.
  pose proof (split_pieces slash path) as Hpieces.
  destruct (split slash path) as [|t [|f [|g rest]]];
    cbn [List.length Nat.eqb nth];
    try discriminate; intros [= <-]; unfold pathOf; cbn [type feature].
  - pose proof (Forall_inv Hpieces) as Ht. cbn beta in Ht.
    cbn [join] in Hjoin. subst t. rewrite append_empty_r.
    repeat split; assumption.
  - pose proof (Forall_inv Hpieces) as Ht.
    pose proof (Forall_inv (Forall_inv_tail Hpieces)) as Hf.
    cbn beta in Ht, Hf.
    change (join (String slash EmptyString) [t; f]) with (t ++ "/" ++ f)
      in Hjoin.
    rewrite Hjoin. repeat split; assumption.
Qed.

Lemma parseUri_accepts_addresses_witness :
  parseUri "appo://best-practices"
  = Some {| type := "best-practices"; feature := None |}
  /\ "appo://best-practices"
     = formatUri {| type := "best-practices"; feature := None |}
  /\ parseUri "appo://" = None
  /\ parseUri "http://api/push" = None
  /\ parseUri "appo://api/push/extra" = None.
Proof.
  assert (H : parseUri "appo://best-practices"
              = Some {| type := "best-practices"; feature := None |})
    by reflexivity.
  split; [exact H|].
  split; [exact (proj1 (parseUri_accepts_addresses _ _ H))|].
  repeat split; reflexivity.
Defined.

End ResourcesProps.
